(** * Escape-room booking service: the booking lifecycle of
      [booking_service.py], embedded as pure functions over an explicit store.

    Every static method of [BookingService] becomes a function that takes the
    environment it reads (the wall clock and [BOOKING_HOLD_MINUTES]) and the
    database tables, and returns its response dictionary together with the
    tables as they are after [db.session.commit()]. *)

From Stdlib Require Import ZArith Lia.
From stdpp Require Import base option strings list gmap fin_maps.

Local Open Scope string_scope.
Local Open Scope Z_scope.

(** ** Dates and times *)

(** A [datetime.datetime]: the wall-clock reading in microseconds since
    1970-01-01T00:00:00, and [tzinfo] as the UTC offset in microseconds
    ([None] for a naive value). *)
Record datetime := mk_datetime { wall : Z; tzinfo : option Z }.

Module timezone.
Definition utc : Z := 0.
End timezone.

(** [dt.replace(tzinfo=tz)] keeps the wall-clock fields. *)
Definition replace_tzinfo (dt : datetime) (tz : Z) : datetime :=
  {| wall := wall dt; tzinfo := Some tz |}.

(** The idiom [if dt.tzinfo is None: dt = dt.replace(tzinfo=timezone.utc)],
    written out three times in the source. *)
Definition utc_if_naive (dt : datetime) : datetime :=
  match tzinfo dt with
  | None => replace_tzinfo dt timezone.utc
  | Some _ => dt
  end.

(** The instant a datetime denotes, in microseconds since the epoch.  Python
    orders aware datetimes by this number; a column value that comes back
    naive from the store is read as UTC, as the source does. *)
Definition timestamp (dt : datetime) : Z :=
  wall dt - default 0 (tzinfo dt).

Definition dt_lt (a b : datetime) : bool := timestamp a <? timestamp b.
Definition dt_ge (a b : datetime) : bool := timestamp b <=? timestamp a.

(** [timedelta(minutes=m)] in microseconds. *)
Definition timedelta_minutes (m : Z) : Z := 60000000 * m.

(** What the process reads from its surroundings during one call: the clock
    and the environment variable [BOOKING_HOLD_MINUTES] (its integer value,
    [None] when unset).  A call is taken to happen at one instant: every
    [datetime.now] inside it reads the same [clock]. *)
Record Env := mk_env { clock : Z; BOOKING_HOLD_MINUTES : option Z }.

(** [datetime.now(timezone.utc)] *)
Definition datetime_now (env : Env) : datetime :=
  {| wall := clock env; tzinfo := Some timezone.utc |}.

(** [int(os.getenv('BOOKING_HOLD_MINUTES', 5))] *)
Definition hold_minutes (env : Env) : Z := default 5 (BOOKING_HOLD_MINUTES env).

(** A date argument as the API layer hands it over: an ISO-8601 string or a
    datetime object; the Python [None] is the [None] of [option date_value]. *)
Inductive date_value :=
| Str (s : string)
| Instant (dt : datetime).

(** Python truthiness of the arguments that [all([...])] inspects. *)
Definition truthy_date (a : option date_value) : bool :=
  match a with
  | None => false
  | Some (Str s) => negb (String.eqb s "")
  | Some (Instant _) => true
  end.

Definition truthy_str (a : option string) : bool :=
  match a with
  | None => false
  | Some s => negb (String.eqb s "")
  end.

Definition truthy_int (a : option Z) : bool :=
  match a with
  | None => false
  | Some z => negb (z =? 0)
  end.

(** ** Tables *)

(** Modelled from the spec: [models.py] is not among the sources.  Section 3
    gives a room an id, a name, a description and a price; the price is read
    by no operation embedded here and is left out.  Rows are keyed by their
    primary key. *)
Record Room := mk_room { room_name : string; room_description : string }.

(** Modelled from the spec: the [User] model of the missing [models.py]:
    id, username, unique email, placeholder credential. *)
Record User := mk_user {
  uid : Z;
  username : string;
  email : string;
  password : string
}.

(** Modelled from the spec: a value of a date column of the missing
    [models.py], taken as a plain [DateTime] column.  The application is
    bound to SQLite ([app.py], line 12), whose date columns keep the
    wall-clock fields of a value and nothing of its time zone: what is
    written aware comes back naive, which is why the service guards its
    reads with [if x.tzinfo is None], and a comparison inside a query is
    between the wall-clock fields of the column and those of the
    parameter. *)
Record stored_datetime := mk_stored { stored_wall : Z }.

(** What a read returns: a naive datetime. *)
Definition loaded (d : stored_datetime) : datetime :=
  {| wall := stored_wall d; tzinfo := None |}.

Coercion loaded : stored_datetime >-> datetime.

(** What a write keeps of a datetime. *)
Definition stored (dt : datetime) : stored_datetime :=
  {| stored_wall := wall dt |}.

(** Modelled from the spec: the [Booking] model of the missing [models.py].
    The three date columns are options because the source guards each read
    ([if booking.end_date:], [booking.status == 'pending' and
    booking.created_at]); the status column is free text, as
    [update_booking] writes whatever it is given. *)
Record Booking := mk_booking {
  room_id : Z;
  user_id : Z;
  start_date : option stored_datetime;
  end_date : option stored_datetime;
  status : string;
  created_at : option stored_datetime
}.

(** The three tables.  Rooms and bookings are fetched by primary key
    ([query.get]); users are searched by email and kept as rows in insertion
    order. *)
Record Store := mk_store {
  rooms : gmap Z Room;
  users : list User;
  bookings : gmap Z Booking
}.

(** The response dictionaries: [{'error': msg}] and
    [{'success': msg, 'booking_id': id}] (the id only where the source
    includes it). *)
Inductive Response :=
| Error (msg : string)
| Success (msg : string) (booking_id : option Z).

(** The result of date validation: [{'error': msg}] or
    [{'start_date': s, 'end_date': e}]. *)
Inductive Validation :=
| Invalid (msg : string)
| Valid (start_date end_date : datetime).

(** Column comparisons inside a query: the wall-clock fields of the column
    against the wall-clock fields of the parameter, whose time zone the
    store does not look at.  A NULL column makes the comparison unknown,
    which a filter treats as not satisfied. *)
Definition col_lt (col : option stored_datetime) (v : datetime) : bool :=
  match col with
  | Some c => stored_wall c <? wall v
  | None => false
  end.

Definition col_gt (col : option stored_datetime) (v : datetime) : bool :=
  match col with
  | Some c => wall v <? stored_wall c
  | None => false
  end.

(** [query.filter(p).first()]: the first row, if any, that satisfies [p]. *)
Definition query_first {A} (p : Z → A → bool) (t : gmap Z A) : option (Z * A) :=
  List.find (λ kv, p kv.1 kv.2) (map_to_list t).

(** The primary key the store gives the next inserted row: one more than the
    largest key in use. *)
Definition next_id {A} (t : gmap Z A) : Z :=
  1 + foldr Z.max 0 (elements (dom t)).

Definition next_uid (us : list User) : Z :=
  1 + foldr Z.max 0 (uid <$> us).

Definition set_status (b : Booking) (st : string) : Booking :=
  {| room_id := room_id b; user_id := user_id b;
     start_date := start_date b; end_date := end_date b;
     status := st; created_at := created_at b |}.

Definition set_bookings (s : Store) (bs : gmap Z Booking) : Store :=
  {| rooms := rooms s; users := users s; bookings := bs |}.

(** Modelled from the spec: the default of the [created_at] column in the
    missing [models.py].  Section 3 calls it the instant of hold
    acquisition, so a row inserted without the field gets the clock. *)
Definition created_at_default (env : Env) : option stored_datetime :=
  Some (stored (datetime_now env)).

(** ** The service *)

Module BookingService.

Section Service.

(** [datetime.fromisoformat]: the string parser of the Python library;
    [None] stands for its [ValueError]. *)
Variable fromisoformat : string → option datetime.

Definition _get_expired_threshold (env : Env) : datetime :=
  {| wall := clock env - timedelta_minutes (hold_minutes env);
     tzinfo := Some timezone.utc |}.

Definition _parse_datetime (dt : date_value) : option datetime :=
  match dt with
  | Str s =>
      match fromisoformat s with
      | Some d => Some (utc_if_naive d)
      | None => None
      end
  | Instant d => Some (utc_if_naive d)
  end.

Definition retrieve_user (s : Store) (name mail : string) : User * Store :=
  match List.find (λ u, String.eqb (email u) mail) (users s) with
  | Some existing_user => (existing_user, s)
  | None =>
      let user := {| uid := next_uid (users s); username := name;
                     email := mail; password := "" |} in
      (user, {| rooms := rooms s; users := users s ++ [user];
                bookings := bookings s |})
  end.

Definition determine_booking_status (env : Env) (booking : Booking) : string :=
  if String.eqb (status booking) "pending" then
    match created_at booking with
    | Some created_at =>
        if dt_lt (utc_if_naive created_at) (_get_expired_threshold env)
        then "expired"
        else status booking
    | None => status booking
    end
  else status booking.

Definition confirm_booking (env : Env) (s : Store) (booking_id : Z)
  : Response * Store :=
  let expired_threshold := _get_expired_threshold env in
  match query_first
          (λ k b, (k =? booking_id)
                  && String.eqb (status b) "pending"
                  && col_gt (created_at b) expired_threshold)
          (bookings s) with
  | None => (Error "Booking not found or not pending.", s)
  | Some (k, booking) =>
      (Success "Booking confirmed successfully." None,
       set_bookings s (<[k := set_status booking "confirmed"]> (bookings s)))
  end.

Definition cancel_booking (env : Env) (s : Store) (booking_id : Z)
  : Response * Store :=
  match bookings s !! booking_id with
  | None => (Error "Booking not found.", s)
  | Some booking =>
      let now := datetime_now env in
      let past :=
        match end_date booking with
        | Some e => dt_lt (utc_if_naive e) now
        | None => false
        end in
      if past
      then (Error "Cannot cancel a booking after its end_date has passed.", s)
      else (Success "Booking cancelled successfully." None,
            set_bookings s
              (<[booking_id := set_status booking "cancelled"]> (bookings s)))
  end.

Definition _validate_booking_dates (env : Env)
    (start_date end_date : option date_value) : Validation :=
  if negb (truthy_date start_date && truthy_date end_date)
  then Invalid "start_date and end_date are required."
  else
    match start_date ≫= _parse_datetime, end_date ≫= _parse_datetime with
    | Some start_date, Some end_date =>
        let now := datetime_now env in
        if dt_ge start_date end_date
        then Invalid "start_date must be before end_date."
        else if dt_lt start_date now || dt_lt end_date now
        then Invalid "start_date and end_date must be in the future."
        else Valid start_date end_date
    | _, _ => Invalid "Invalid date format. Use ISO8601 (YYYY-MM-DDTHH:MM:SSZ)"
    end.

(** The filter of [_check_room_available], row by row. *)
Definition blocking_row (expired_threshold : datetime) (room : Z)
    (start_date' end_date' : datetime) (b : Booking) : bool :=
  (room_id b =? room)
  && col_lt (start_date b) end_date'
  && col_gt (end_date b) start_date'
  && (String.eqb (status b) "confirmed"
      || (String.eqb (status b) "pending"
          && col_gt (created_at b) expired_threshold)).

Definition _check_room_available (env : Env) (s : Store) (room : Z)
    (start_date end_date : datetime) : bool :=
  let expired_threshold := _get_expired_threshold env in
  match query_first
          (λ _ b, blocking_row expired_threshold room start_date end_date b)
          (bookings s) with
  | None => true
  | Some _ => false
  end.

Definition create_booking (env : Env) (s : Store)
    (room : option Z) (user_name user_email : option string)
    (start_date end_date : option date_value) (status : string)
  : Response * Store :=
  match room, user_name, user_email with
  | Some room_id, Some name, Some mail =>
      if negb (truthy_int room && truthy_str user_name && truthy_str user_email
               && truthy_date start_date && truthy_date end_date)
      then (Error "room_id, user_name, user_email, start_date, and end_date are required.", s)
      else
        match _validate_booking_dates env start_date end_date with
        | Invalid msg => (Error msg, s)
        | Valid start_date end_date =>
            match rooms s !! room_id with
            | None => (Error "Room does not exist.", s)
            | Some _ =>
                let '(user, s) := retrieve_user s name mail in
                if negb (_check_room_available env s room_id start_date end_date)
                then (Error "Room is not available for the selected time range.", s)
                else
                  let booking_id := next_id (bookings s) in
                  let booking :=
                    {| room_id := room_id; user_id := uid user;
                       start_date := Some (stored start_date);
                       end_date := Some (stored end_date);
                       status := status;
                       created_at := created_at_default env |} in
                  (Success "Booking created successfully." (Some booking_id),
                   set_bookings s (<[booking_id := booking]> (bookings s)))
            end
        end
  | _, _, _ =>
      (Error "room_id, user_name, user_email, start_date, and end_date are required.", s)
  end.

Definition update_booking (env : Env) (s : Store) (booking_id : Z)
    (start_date end_date : option date_value) (status : string)
  : Response * Store :=
  match bookings s !! booking_id with
  | None => (Error "Booking not found.", s)
  | Some booking =>
      match _validate_booking_dates env start_date end_date with
      | Invalid msg => (Error msg, s)
      | Valid start_date end_date =>
          if (String.eqb status "confirmed" || String.eqb status "pending")
             && negb (_check_room_available env s (room_id booking)
                        start_date end_date)
          then (Error "Room is not available for the selected time range.", s)
          else
            (Success "Booking updated successfully." (Some booking_id),
             set_bookings s
               (<[booking_id :=
                    {| room_id := room_id booking; user_id := user_id booking;
                       start_date := Some (stored start_date);
                       end_date := Some (stored end_date);
                       status := status;
                       created_at := created_at booking |}]> (bookings s)))
      end
  end.

Definition release_booking (s : Store) (booking_id : Z) : Response * Store :=
  match query_first
          (λ k b, (k =? booking_id) && String.eqb (status b) "pending")
          (bookings s) with
  | None => (Error "Booking not found or not pending.", s)
  | Some (k, booking) =>
      (Success "Booking released successfully." None,
       set_bookings s (<[k := set_status booking "released"]> (bookings s)))
  end.

(** [datetime.isoformat]: the printer of the Python library. *)
Variable isoformat : datetime → string.

(** The dictionary [retrieve_booking] returns. *)
Record BookingInfo := mk_info {
  info_id : Z;
  info_room_id : Z;
  info_user_id : Z;
  info_start_date : option string;
  info_end_date : option string;
  info_status : string;
  info_user_name : string;
  info_user_email : string;
  info_room_name : string;
  info_room_description : string
}.

(** The query joins the booking with its user and its room; a booking whose
    user or room row is missing yields no row, hence [None]. *)
Definition retrieve_booking (env : Env) (s : Store) (booking_id : Z)
  : option BookingInfo :=
  match bookings s !! booking_id with
  | None => None
  | Some booking =>
      match List.find (λ u, uid u =? user_id booking) (users s),
            rooms s !! room_id booking with
      | Some user, Some room =>
          let current_status := determine_booking_status env booking in
          Some {| info_id := booking_id;
                  info_room_id := room_id booking;
                  info_user_id := user_id booking;
                  info_start_date :=
                    (λ d : stored_datetime, isoformat d) <$> start_date booking;
                  info_end_date :=
                    (λ d : stored_datetime, isoformat d) <$> end_date booking;
                  info_status := current_status;
                  info_user_name := username user;
                  info_user_email := email user;
                  info_room_name := room_name room;
                  info_room_description := room_description room |}
      | _, _ => None
      end
  end.

End Service.

End BookingService.

Import BookingService.

(** ** Reading the arguments of date validation *)

Section Inputs.

Variable fromisoformat : string → option datetime.

(** The datetime a date argument stands for before any time zone is
    attached: the object itself, or what the library parser makes of the
    string. *)
Definition datetime_of (v : date_value) : option datetime :=
  match v with
  | Str s => fromisoformat s
  | Instant d => Some d
  end.

(** The instant it denotes, a naive value being read as UTC. *)
Definition instant_of (v : date_value) : option Z :=
  timestamp <$> datetime_of v.

End Inputs.

(** The answer of [create_booking] and [update_booking] when the
    availability filter finds a blocking row. *)
Definition room_unavailable : Response :=
  Error "Room is not available for the selected time range.".

(** ** The operations as transitions of the store *)

(** One call of the core, with its arguments. *)
Inductive Op :=
| CreateBooking (room : option Z) (user_name user_email : option string)
    (start_date end_date : option date_value) (status : string)
| UpdateBooking (booking_id : Z) (start_date end_date : option date_value)
    (status : string)
| ConfirmBooking (booking_id : Z)
| CancelBooking (booking_id : Z)
| ReleaseBooking (booking_id : Z).

Definition run (fromisoformat : string → option datetime) (env : Env)
    (op : Op) (s : Store) : Response * Store :=
  match op with
  | CreateBooking room name mail sd ed st =>
      BookingService.create_booking fromisoformat env s room name mail sd ed st
  | UpdateBooking id sd ed st =>
      BookingService.update_booking fromisoformat env s id sd ed st
  | ConfirmBooking id => BookingService.confirm_booking env s id
  | CancelBooking id => BookingService.cancel_booking env s id
  | ReleaseBooking id => BookingService.release_booking s id
  end.

(** ** Sample data

    The fixture of [test_booking.py]: one room with id 1, and bookings a day
    ahead of the clock lasting one hour. *)

Definition minute : Z := 60000000.
Definition hour : Z := 60 * minute.
Definition day : Z := 24 * hour.

(** 2030-01-01T00:00:00+00:00 *)
Definition jan1 : Z := 1893456000000000.

Definition aware (t : Z) : datetime := {| wall := t; tzinfo := Some 0 |}.

(** [fromisoformat] on the two strings the samples use; every other string
    is refused. *)
Definition iso_samples (s : string) : option datetime :=
  if String.eqb s "2030-01-02T00:00:00+00:00" then Some (aware (jan1 + day))
  else if String.eqb s "2030-01-02T01:00:00" then
    Some {| wall := jan1 + day + hour; tzinfo := None |}
  else None.

Definition env0 : Env := {| clock := jan1; BOOKING_HOLD_MINUTES := None |}.

(** One minute later, and one minute after the default hold has run out. *)
Definition env_1min : Env :=
  {| clock := jan1 + minute; BOOKING_HOLD_MINUTES := None |}.
Definition env_6min : Env :=
  {| clock := jan1 + 6 * minute; BOOKING_HOLD_MINUTES := None |}.

Definition sample_start : option date_value :=
  Some (Str "2030-01-02T00:00:00+00:00").
Definition sample_end : option date_value :=
  Some (Str "2030-01-02T01:00:00").

Definition test_room : Room :=
  {| room_name := "Test Room"; room_description := "Test Description" |}.

Definition fresh_store : Store :=
  {| rooms := {[ 1 := test_room ]}; users := []; bookings := ∅ |}.

Definition testuser : User :=
  {| uid := 1; username := "testuser"; email := "test@example.com";
     password := "" |}.

(** A booking of room 1 for the sample window, with the given status and
    creation time. *)
Definition sample_booking (st : string) (created : Z) : Booking :=
  {| room_id := 1; user_id := 1;
     start_date := Some (mk_stored (jan1 + day));
     end_date := Some (mk_stored (jan1 + day + hour));
     status := st; created_at := Some (mk_stored created) |}.

Definition store_with (b : Booking) : Store :=
  {| rooms := {[ 1 := test_room ]}; users := [testuser];
     bookings := {[ 1 := b ]} |}.

(** ** No double booking *)

(** A row that holds its room at the time of [env]: stored as 'confirmed',
    or stored as 'pending' and created after the expiry threshold. *)
Definition live (env : Env) (b : Booking) : Prop :=
  status b = "confirmed"
  ∨ (status b = "pending"
     ∧ ∃ c, created_at b = Some c
            ∧ clock env - timedelta_minutes (hold_minutes env) < timestamp c).




(** A sequence of calls, each with the environment it runs in. *)
Definition run_all (fromisoformat : string → option datetime)
    (calls : list (Env * Op)) (s : Store) : Store :=
  foldl (λ s call, snd (run fromisoformat call.1 call.2 s)) s calls.

(** The calls that can write any status at all to row [id]: the updates of
    that row. *)
Definition is_update_of (id : Z) (op : Op) : bool :=
  match op with
  | UpdateBooking k _ _ _ => k =? id
  | _ => false
  end.


(** ** The room seed migration

    [dedbcdd8a293_seed_rooms_from_json.py]: [rooms.json] as the list of its
    entries, the [room] table keyed by id. *)

Module seed_rooms.

Section Migration.

(** The JSON number of a price. *)
Variable Price : Type.

Record room_json := mk_room_json {
  json_id : Z;
  json_name : string;
  json_description : string;
  json_price : Price
}.

Record room_row := mk_room_row {
  row_name : string;
  row_description : string;
  row_price : Price;
  row_created_at : datetime;
  row_updated_at : datetime
}.

Definition upgrade (env : Env) (rooms_data : list room_json)
    (room_table : gmap Z room_row) : gmap Z room_row :=
  let now := datetime_now env in
  foldl (λ table room,
           match table !! json_id room with
           | Some _ => table
           | None =>
               <[json_id room :=
                   {| row_name := json_name room;
                      row_description := json_description room;
                      row_price := json_price room;
                      row_created_at := now;
                      row_updated_at := now |}]> table
           end)
        room_table rooms_data.

Definition downgrade (rooms_data : list room_json)
    (room_table : gmap Z room_row) : gmap Z room_row :=
  let room_ids := json_id <$> rooms_data in
  match room_ids with
  | [] => room_table
  | _ => filter (λ kv, kv.1 ∉ room_ids) room_table
  end.

End Migration.

End seed_rooms.

(** ** The availability route of [app.py] *)

Module app.

Section Routes.

Variable fromisoformat : string → option datetime.

(** The rows [get_available_rooms_by_date_range] returns.  Its query is
    text SQL evaluated by the database; the route only passes its answer
    on, so the function is a parameter here. *)
Variable RoomDict : Type.
Variable get_available_rooms_by_date_range :
  datetime → datetime → list RoomDict.

(** A JSON answer with its HTTP status. *)
Inductive AvailabilityResponse :=
| AvailabilityError (msg : string) (code : Z)
| AvailabilityRooms (rooms : list RoomDict).

(** [GET /api/v1/availability], from its two query parameters. *)
Definition availability (start_date_str end_date_str : option string)
  : AvailabilityResponse :=
  if negb (truthy_str start_date_str) || negb (truthy_str end_date_str)
  then AvailabilityError
         "start_date and end_date query params are required (ISO8601)" 400
  else
    match start_date_str ≫= fromisoformat, end_date_str ≫= fromisoformat with
    | Some start_date, Some end_date =>
        let start_date := utc_if_naive start_date in
        let end_date := utc_if_naive end_date in
        if dt_ge start_date end_date
        then AvailabilityError "start_date must be before end_date" 400
        else AvailabilityRooms
               (get_available_rooms_by_date_range start_date end_date)
    | _, _ =>
        AvailabilityError
          "Invalid datetime format. Use ISO8601 (YYYY-MM-DDTHH:MM:SSZ)" 400
    end.

End Routes.

End app.

(** ** More sample data *)

(** [isoformat] on the sample window: a naive value prints without an
    offset. *)
Definition sample_isoformat (dt : datetime) : string :=
  match tzinfo dt with
  | None =>
      if (wall dt =? jan1 + day) then "2030-01-02T00:00:00"
      else "2030-01-02T01:00:00"
  | Some _ =>
      if (wall dt =? jan1 + day) then "2030-01-02T00:00:00+00:00"
      else "2030-01-02T01:00:00+00:00"
  end.

(** A window whose ends carry different offsets: from 10:00 at UTC to 09:30
    at UTC-5 (14:30 at UTC) on 2 January 2030, given as datetime objects. *)
Definition offset_start : option date_value :=
  Some (Instant {| wall := jan1 + day + 10 * hour; tzinfo := Some 0 |}).
Definition offset_end : option date_value :=
  Some (Instant {| wall := jan1 + day + 9 * hour + 30 * minute;
                   tzinfo := Some (- (5 * hour)) |}).

(** The hour after the sample window, given as datetime objects at UTC. *)
Definition next_start : option date_value :=
  Some (Instant (aware (jan1 + day + hour))).
Definition next_end : option date_value :=
  Some (Instant (aware (jan1 + day + 2 * hour))).


Definition rooms_json : list (seed_rooms.room_json Z) :=
  [ seed_rooms.mk_room_json Z 1 "Test Room" "Test Description" 50;
    seed_rooms.mk_room_json Z 2 "Vault" "A bank vault" 75 ].


(** ** Queries and keys *)

Section Queries.

Context {A : Type}.
Implicit Types (p : Z → A → bool) (t : gmap Z A).

Lemma query_first_Some p t k a :
  query_first p t = Some (k, a) → t !! k = Some a ∧ p k a = true.
Proof.
  unfold query_first. intros H. apply find_some in H as [Hin Hp].
  split; [|exact Hp].
  apply elem_of_map_to_list, list_elem_of_In, Hin.
Qed.

Lemma query_first_None p t :
  query_first p t = None ↔ ∀ k a, t !! k = Some a → p k a = false.
Proof.
  unfold query_first. split.
  - intros H k a Hk.
    apply (find_none _ _ H (k, a)), list_elem_of_In, elem_of_map_to_list, Hk.
  - intros H. destruct (find _ _) as [[k a]|] eqn:E; [|reflexivity].
    apply find_some in E as [Hin Hp]. simpl in Hp.
    apply list_elem_of_In, elem_of_map_to_list in Hin.
    rewrite (H _ _ Hin) in Hp. discriminate.
Qed.

(** A filter that pins the primary key is a lookup followed by a test. *)
Lemma query_first_by_key p t id :
  (∀ k a, p k a = true → k = id) →
  query_first p t =
    match t !! id with
    | Some a => if p id a then Some (id, a) else None
    | None => None
    end.
Proof.
  intros Hkey. destruct (query_first p t) as [[k a]|] eqn:E.
  - apply query_first_Some in E as [Hk Hp].
    pose proof (Hkey _ _ Hp) as ->. rewrite Hk, Hp. reflexivity.
  - destruct (t !! id) as [a|] eqn:Hid; [|reflexivity].
    rewrite query_first_None in E. rewrite (E _ _ Hid). reflexivity.
Qed.

Lemma foldr_max_ub (l : list Z) k : k ∈ l → k ≤ foldr Z.max 0 l.
Proof.
  induction l as [|x l IH]; simpl.
  - intros H. inversion H.
  - intros [->|H]%elem_of_cons; [lia|]. specialize (IH H). lia.
Qed.

Lemma next_id_fresh t : t !! next_id t = None.
Proof.
  apply not_elem_of_dom. intros Hin.
  apply elem_of_elements, foldr_max_ub in Hin. unfold next_id in Hin. lia.
Qed.

End Queries.

Lemma timestamp_utc_if_naive dt : timestamp (utc_if_naive dt) = timestamp dt.
Proof. destruct dt as [w [o|]]; reflexivity. Qed.

Lemma timestamp_threshold env :
  timestamp (_get_expired_threshold env)
  = clock env - timedelta_minutes (hold_minutes env).
Proof. unfold timestamp; simpl. unfold timezone.utc. lia. Qed.

Lemma timestamp_now env : timestamp (datetime_now env) = clock env.
Proof. unfold timestamp; simpl. unfold timezone.utc. lia. Qed.

(** A value read from the store denotes its wall-clock reading, taken as
    UTC. *)
Lemma timestamp_loaded (c : stored_datetime) : timestamp c = stored_wall c.
Proof. unfold timestamp. simpl. lia. Qed.

Lemma wall_threshold env :
  wall (_get_expired_threshold env)
  = clock env - timedelta_minutes (hold_minutes env).
Proof. reflexivity. Qed.

Lemma col_gt_true col v :
  col_gt col v = true ↔ ∃ c : stored_datetime, col = Some c ∧ wall v < timestamp c.
Proof.
  destruct col as [c|]; simpl.
  - rewrite Z.ltb_lt. split.
    + intros H. exists c. rewrite timestamp_loaded. auto.
    + intros (c' & [= <-] & H). rewrite timestamp_loaded in H. exact H.
  - split; [discriminate|]. intros (c & [=] & _).
Qed.

Lemma col_lt_true col v :
  col_lt col v = true ↔ ∃ c : stored_datetime, col = Some c ∧ timestamp c < wall v.
Proof.
  destruct col as [c|]; simpl.
  - rewrite Z.ltb_lt. split.
    + intros H. exists c. rewrite timestamp_loaded. auto.
    + intros (c' & [= <-] & H). rewrite timestamp_loaded in H. exact H.
  - split; [discriminate|]. intros (c & [=] & _).
Qed.

(** ** confirm_booking, cancel_booking, release_booking *)

Lemma confirm_booking_eq env s id :
  confirm_booking env s id =
    match bookings s !! id with
    | Some b =>
        if String.eqb (status b) "pending"
           && col_gt (created_at b) (_get_expired_threshold env)
        then (Success "Booking confirmed successfully." None,
              set_bookings s (<[id := set_status b "confirmed"]> (bookings s)))
        else (Error "Booking not found or not pending.", s)
    | None => (Error "Booking not found or not pending.", s)
    end.
Proof.
  unfold confirm_booking. rewrite (query_first_by_key _ _ id).
  - destruct (bookings s !! id) as [b|]; [|reflexivity].
    rewrite Z.eqb_refl. simpl. destruct (_ && _); reflexivity.
  - intros k a H. apply andb_prop in H as [H _]. apply andb_prop in H as [H _].
    apply Z.eqb_eq, H.
Qed.

Lemma release_booking_eq s id :
  release_booking s id =
    match bookings s !! id with
    | Some b =>
        if String.eqb (status b) "pending"
        then (Success "Booking released successfully." None,
              set_bookings s (<[id := set_status b "released"]> (bookings s)))
        else (Error "Booking not found or not pending.", s)
    | None => (Error "Booking not found or not pending.", s)
    end.
Proof.
  unfold release_booking. rewrite (query_first_by_key _ _ id).
  - destruct (bookings s !! id) as [b|]; [|reflexivity].
    rewrite Z.eqb_refl. simpl. destruct (String.eqb _ _); reflexivity.
  - intros k a H. apply andb_prop in H as [H _]. apply Z.eqb_eq, H.
Qed.

(** C5. [confirm_booking] succeeds exactly when the row exists, is stored as
    'pending' and was created strictly after the expiry threshold (the clock
    minus the hold duration).  On success the stored status of that row is
    'confirmed', its other columns are as before, and no other row, user or
    room is touched; in every other case (absent, expired, confirmed,
    cancelled, released) the answer is the error 'Booking not found or not
    pending.' and the store is left as it was. *)
Theorem confirm_booking_spec env s id :
  (fst (confirm_booking env s id) = Success "Booking confirmed successfully." None
   ↔ ∃ b c, bookings s !! id = Some b ∧ status b = "pending"
            ∧ created_at b = Some c
            ∧ clock env - timedelta_minutes (hold_minutes env) < timestamp c)
  ∧ (∀ b, bookings s !! id = Some b →
          fst (confirm_booking env s id) = Success "Booking confirmed successfully." None →
          (∃ b', bookings (snd (confirm_booking env s id)) !! id = Some b'
                 ∧ status b' = "confirmed"
                 ∧ room_id b' = room_id b ∧ user_id b' = user_id b
                 ∧ start_date b' = start_date b ∧ end_date b' = end_date b
                 ∧ created_at b' = created_at b)
          ∧ (∀ k, k ≠ id →
                  bookings (snd (confirm_booking env s id)) !! k
                  = bookings s !! k)
          ∧ rooms (snd (confirm_booking env s id)) = rooms s
          ∧ users (snd (confirm_booking env s id)) = users s)
  ∧ (fst (confirm_booking env s id) ≠ Success "Booking confirmed successfully." None →
     confirm_booking env s id = (Error "Booking not found or not pending.", s)).
Proof.
  rewrite confirm_booking_eq.
  destruct (bookings s !! id) as [b|] eqn:Hb; simpl.
  - destruct (String.eqb_spec (status b) "pending") as [Hst|Hst]; simpl.
    + destruct (col_gt (created_at b) (_get_expired_threshold env)) eqn:Hc; simpl.
      * apply col_gt_true in Hc as (c & Hc & Hlt).
        rewrite wall_threshold in Hlt.
        split; [|split].
        -- split; [|reflexivity]. intros _. exists b, c. auto.
        -- intros b' [= <-] _. split; [|split; [|split; reflexivity]].
           ++ exists (set_status b "confirmed").
              rewrite lookup_insert_eq. repeat split; reflexivity.
           ++ intros k Hk. rewrite lookup_insert_ne by auto. reflexivity.
        -- intros H. contradiction.
      * split; [|split].
        -- split; [discriminate|]. intros (b' & c & [= <-] & _ & Hc' & Hlt).
           assert (col_gt (created_at b) (_get_expired_threshold env) = true) as E.
           { apply col_gt_true. exists c. rewrite wall_threshold. auto. }
           congruence.
        -- intros b' _ [=].
        -- reflexivity.
    + split; [|split].
      * split; [discriminate|]. intros (b' & c & [= <-] & Hp & _). contradiction.
      * intros b' _ [=].
      * reflexivity.
  - split; [|split].
    + split; [discriminate|]. intros (b' & c & [=] & _).
    + intros b' [=].
    + reflexivity.
Qed.


Lemma determine_expired_pending env b :
  determine_booking_status env b = "expired" →
  status b = "pending" ∨ status b = "expired".
Proof.
  unfold determine_booking_status.
  destruct (String.eqb_spec (status b) "pending") as [E|E]; [auto|].
  intros ->. auto.
Qed.

(** C7. [release_booking] succeeds exactly when the row exists and is stored
    as 'pending'; no clock is consulted, so a 'pending' row that the status
    resolver already reports as 'expired' is released all the same.  On
    success the stored status of that row is 'released', its other columns
    are as before, and no other row, user or room is touched; in every
    other case, a 'confirmed' row included, the answer is 'Booking not found
    or not pending.' and the store is left as it was. *)
Theorem release_booking_spec s id :
  (fst (release_booking s id) = Success "Booking released successfully." None
   ↔ ∃ b, bookings s !! id = Some b ∧ status b = "pending")
  ∧ (∀ b, bookings s !! id = Some b → status b = "pending" →
          fst (release_booking s id)
          = Success "Booking released successfully." None
          ∧ (∃ b', bookings (snd (release_booking s id)) !! id = Some b'
                   ∧ status b' = "released"
                   ∧ room_id b' = room_id b ∧ user_id b' = user_id b
                   ∧ start_date b' = start_date b ∧ end_date b' = end_date b
                   ∧ created_at b' = created_at b)
          ∧ (∀ k, k ≠ id →
                  bookings (snd (release_booking s id)) !! k
                  = bookings s !! k)
          ∧ rooms (snd (release_booking s id)) = rooms s
          ∧ users (snd (release_booking s id)) = users s)
  ∧ (∀ env b, bookings s !! id = Some b → status b = "pending" →
              determine_booking_status env b = "expired" →
              fst (release_booking s id)
              = Success "Booking released successfully." None
              ∧ status <$> bookings (snd (release_booking s id)) !! id
                = Some "released")
  ∧ (∀ b, bookings s !! id = Some b → status b = "confirmed" →
          release_booking s id = (Error "Booking not found or not pending.", s))
  ∧ (fst (release_booking s id) ≠ Success "Booking released successfully." None →
     release_booking s id = (Error "Booking not found or not pending.", s)).
Proof.
  rewrite release_booking_eq.
  destruct (bookings s !! id) as [b|] eqn:Hb.
  - destruct (String.eqb_spec (status b) "pending") as [Hst|Hst]; simpl.
    + split; [split; eauto|].
      split.
      { intros b' [= <-] _. split; [reflexivity|].
        split; [|split; [|split; reflexivity]].
        - exists (set_status b "released").
          rewrite lookup_insert_eq. repeat split; reflexivity.
        - intros k Hk. rewrite lookup_insert_ne by auto. reflexivity. }
      split.
      { intros env b' _ _ _. split; [reflexivity|].
        rewrite lookup_insert_eq. reflexivity. }
      split.
      { intros b' [= <-] Hc. congruence. }
      intros H. contradiction.
    + split.
      { split; [discriminate|]. intros (b' & [= <-] & Hp). contradiction. }
      split.
      { intros b' [= <-] Hp. contradiction. }
      split.
      { intros env b' [= <-] Hp. contradiction. }
      split; reflexivity.
  - split.
    { split; [discriminate|]. intros (b' & [=] & _). }
    split; [discriminate|]. split; [discriminate|].
    split; [discriminate|reflexivity].
Qed.

(** ** retrieve_user *)

Lemma next_uid_fresh us u : u ∈ us → uid u ≠ next_uid us.
Proof.
  intros Hin Heq.
  assert (uid u ∈ uid <$> us) as Hm by (apply list_elem_of_fmap; eauto).
  apply foldr_max_ub in Hm. unfold next_uid in Heq. lia.
Qed.

Lemma retrieve_user_known s name mail u :
  u ∈ users s → email u = mail →
  ∃ u', retrieve_user s name mail = (u', s) ∧ u' ∈ users s ∧ email u' = mail.
Proof.
  intros Hin Hmail. unfold retrieve_user.
  destruct (find _ (users s)) as [u'|] eqn:E.
  - apply find_some in E as [Hin' He]. apply String.eqb_eq in He.
    exists u'. split; [reflexivity|]. split; [|exact He].
    apply list_elem_of_In, Hin'.
  - apply list_elem_of_In in Hin.
    pose proof (find_none _ _ E u Hin) as Hne. simpl in Hne.
    apply String.eqb_neq in Hne. contradiction.
Qed.

Lemma retrieve_user_unknown s name mail :
  (∀ u, u ∈ users s → email u ≠ mail) →
  retrieve_user s name mail
  = ({| uid := next_uid (users s); username := name; email := mail;
        password := "" |},
     {| rooms := rooms s;
        users := users s ++ [{| uid := next_uid (users s); username := name;
                                email := mail; password := "" |}];
        bookings := bookings s |}).
Proof.
  intros Hnone. unfold retrieve_user.
  destruct (find _ (users s)) as [u'|] eqn:E; [|reflexivity].
  apply find_some in E as [Hin' He]. apply String.eqb_eq in He.
  apply list_elem_of_In in Hin'. destruct (Hnone _ Hin' He).
Qed.

(** C9. [retrieve_user]: when some stored user has the email, a stored user
    with that email is returned exactly as stored (its username is not
    replaced by the supplied name) and the store is unchanged, so no user is
    created; when none has it, a user with the supplied name and email and
    the empty password is appended to the users table under a fresh id and
    returned, and the other tables are unchanged. *)
Theorem retrieve_user_spec s name mail :
  (∀ u, u ∈ users s → email u = mail →
        ∃ u', retrieve_user s name mail = (u', s)
              ∧ u' ∈ users s ∧ email u' = mail)
  ∧ ((∀ u, u ∈ users s → email u ≠ mail) →
     ∃ i, retrieve_user s name mail
          = ({| uid := i; username := name; email := mail; password := "" |},
             {| rooms := rooms s;
                users := users s ++ [{| uid := i; username := name;
                                        email := mail; password := "" |}];
                bookings := bookings s |})
          ∧ ∀ u, u ∈ users s → uid u ≠ i).
Proof.
  split.
  - apply retrieve_user_known.
  - intros Hnone. exists (next_uid (users s)).
    split; [apply retrieve_user_unknown, Hnone|].
    intros u. apply next_uid_fresh.
Qed.

(** ** Date validation *)

Section Validation.

Variable fromisoformat : string → option datetime.

Local Abbreviation _parse_datetime := (_parse_datetime fromisoformat).
Local Abbreviation _validate_booking_dates := (_validate_booking_dates fromisoformat).
Local Abbreviation datetime_of := (datetime_of fromisoformat).
Local Abbreviation instant_of := (instant_of fromisoformat).

Lemma parse_datetime_eq v :
  _parse_datetime v = utc_if_naive <$> datetime_of v.
Proof. destruct v as [str|d]; simpl; [destruct (fromisoformat str)|]; reflexivity. Qed.

Lemma utc_if_naive_aware d : tzinfo (utc_if_naive d) ≠ None.
Proof. destruct d as [w [o|]]; discriminate. Qed.

Lemma utc_if_naive_naive d :
  tzinfo d = None → utc_if_naive d = {| wall := wall d; tzinfo := Some 0 |}.
Proof. destruct d as [w [o|]]; [discriminate|]. reflexivity. Qed.

Lemma utc_if_naive_id d : tzinfo d ≠ None → utc_if_naive d = d.
Proof. destruct d as [w [o|]]; [reflexivity|]. intros H. destruct H. reflexivity. Qed.

(** What validation computes once both arguments are present and parsed. *)
Lemma validate_parsed env sd ed vs ve ds de :
  sd = Some vs → ed = Some ve →
  truthy_date sd = true → truthy_date ed = true →
  datetime_of vs = Some ds → datetime_of ve = Some de →
  _validate_booking_dates env sd ed =
    if timestamp de <=? timestamp ds
    then Invalid "start_date must be before end_date."
    else if (timestamp ds <? clock env) || (timestamp de <? clock env)
    then Invalid "start_date and end_date must be in the future."
    else Valid (utc_if_naive ds) (utc_if_naive de).
Proof.
  intros -> -> Hs He Hds Hde. unfold BookingService._validate_booking_dates.
  rewrite Hs, He. simpl. rewrite !parse_datetime_eq, Hds, Hde. simpl.
  unfold dt_ge, dt_lt. rewrite !timestamp_utc_if_naive, timestamp_now.
  reflexivity.
Qed.

(** What a successful validation says about its result. *)
Lemma validate_Valid_inv env sd ed st e :
  _validate_booking_dates env sd ed = Valid st e →
  ∃ vs ve ds de,
    sd = Some vs ∧ ed = Some ve
    ∧ datetime_of vs = Some ds ∧ datetime_of ve = Some de
    ∧ st = utc_if_naive ds ∧ e = utc_if_naive de
    ∧ timestamp st < timestamp e
    ∧ clock env ≤ timestamp st ∧ clock env ≤ timestamp e.
Proof.
  unfold BookingService._validate_booking_dates.
  destruct (truthy_date sd) eqn:Hs; [|discriminate].
  destruct (truthy_date ed) eqn:He; [|discriminate].
  destruct sd as [vs|]; [|discriminate]. destruct ed as [ve|]; [|discriminate].
  simpl. rewrite !parse_datetime_eq.
  destruct (datetime_of vs) as [ds|] eqn:Hds; [|discriminate].
  destruct (datetime_of ve) as [de|] eqn:Hde; [|discriminate].
  simpl. unfold dt_ge, dt_lt. rewrite !timestamp_utc_if_naive, timestamp_now.
  destruct (Z.leb_spec (timestamp de) (timestamp ds)); [discriminate|].
  destruct (Z.ltb_spec (timestamp ds) (clock env)); [discriminate|].
  destruct (Z.ltb_spec (timestamp de) (clock env)); [discriminate|].
  simpl. intros [= <- <-]. exists vs, ve, ds, de.
  rewrite !timestamp_utc_if_naive. auto 10.
Qed.

(** C4, as the code has it.  Validation answers with an error exactly when
    an argument is missing (None or the empty string), a string argument is
    refused by the ISO-8601 parser, start is not before end, or one of the
    two instants lies strictly before the clock.  An instant equal to the
    clock is not refused.  Otherwise it returns the two datetimes it was
    given or parsed, each carrying a time zone, a naive one being given UTC
    with its wall-clock reading unchanged; start is then before end and
    neither lies before the clock. *)
Theorem validate_booking_dates_spec env sd ed :
  ((∃ msg, _validate_booking_dates env sd ed = Invalid msg)
   ↔ truthy_date sd = false ∨ truthy_date ed = false
     ∨ (∃ v, (sd = Some v ∨ ed = Some v) ∧ instant_of v = None)
     ∨ (∃ vs ve ts te,
          sd = Some vs ∧ ed = Some ve
          ∧ instant_of vs = Some ts ∧ instant_of ve = Some te
          ∧ (te ≤ ts ∨ ts < clock env ∨ te < clock env)))
  ∧ (∀ st e, _validate_booking_dates env sd ed = Valid st e →
       ∃ vs ve ds de,
         sd = Some vs ∧ ed = Some ve
         ∧ datetime_of vs = Some ds ∧ datetime_of ve = Some de
         ∧ st = utc_if_naive ds ∧ e = utc_if_naive de
         ∧ tzinfo st ≠ None ∧ tzinfo e ≠ None
         ∧ (tzinfo ds = None → st = {| wall := wall ds; tzinfo := Some 0 |})
         ∧ (tzinfo de = None → e = {| wall := wall de; tzinfo := Some 0 |})
         ∧ timestamp st < timestamp e
         ∧ clock env ≤ timestamp st ∧ clock env ≤ timestamp e).
Proof.
  destruct (truthy_date sd) eqn:Hs; cycle 1.
  { unfold BookingService._validate_booking_dates. rewrite Hs. simpl.
    split; [|discriminate]. split; eauto. }
  destruct (truthy_date ed) eqn:He; cycle 1.
  { unfold BookingService._validate_booking_dates. rewrite Hs, He. simpl.
    split; [|discriminate]. split; eauto. }
  destruct sd as [vs|]; [|discriminate]. destruct ed as [ve|]; [|discriminate].
  destruct (datetime_of vs) as [ds|] eqn:Hds; cycle 1.
  { unfold BookingService._validate_booking_dates. rewrite Hs, He. simpl.
    rewrite !parse_datetime_eq, Hds. simpl. split; [|discriminate].
    split; [|eauto]. intros _. right; right; left. exists vs.
    unfold instant_of. rewrite Hds. auto. }
  destruct (datetime_of ve) as [de|] eqn:Hde; cycle 1.
  { unfold BookingService._validate_booking_dates. rewrite Hs, He. simpl.
    rewrite !parse_datetime_eq, Hds, Hde. simpl. split; [|discriminate].
    split; [|eauto]. intros _. right; right; left. exists ve.
    unfold instant_of. rewrite Hde. auto. }
  rewrite (validate_parsed env _ _ vs ve ds de) by done.
  assert (instant_of vs = Some (timestamp ds)) as Is
    by (unfold instant_of; rewrite Hds; reflexivity).
  assert (instant_of ve = Some (timestamp de)) as Ie
    by (unfold instant_of; rewrite Hde; reflexivity).
  destruct (Z.leb_spec (timestamp de) (timestamp ds)) as [Hle|Hlt].
  { split; [|discriminate]. split; [|eauto]. intros _.
    right; right; right. exists vs, ve, (timestamp ds), (timestamp de). auto 10. }
  destruct (Z.ltb_spec (timestamp ds) (clock env)) as [H1|H1]; simpl.
  { split; [|discriminate]. split; [|eauto]. intros _.
    right; right; right. exists vs, ve, (timestamp ds), (timestamp de). auto 10. }
  destruct (Z.ltb_spec (timestamp de) (clock env)) as [H2|H2]; simpl.
  { split; [|discriminate]. split; [|eauto]. intros _.
    right; right; right. exists vs, ve, (timestamp ds), (timestamp de). auto 10. }
  split.
  - split; [intros [msg [=]]|].
    intros [[=]|[[=]|[(v & Hv & Hnone)|(vs' & ve' & ts & te & [= <-] & [= <-] & Hts & Hte & Hbad)]]].
    + destruct Hv as [[= <-]|[= <-]]; congruence.
    + rewrite Is in Hts. rewrite Ie in Hte.
      injection Hts as <-. injection Hte as <-. lia.
  - intros st e [= <- <-]. exists vs, ve, ds, de.
    rewrite !timestamp_utc_if_naive.
    repeat split; auto using utc_if_naive_aware, utc_if_naive_naive.
Qed.

End Validation.

(** A window that starts at the very instant of validation is accepted:
    the claim that every window with an instant equal to the current moment
    is refused does not hold.  The clock reads 2030-01-01T00:00:00Z, start
    is that same instant and end is one hour later. *)
Lemma validate_start_at_now_not_refused :
  ¬ (∀ env sd ed vs ve ts te,
       sd = Some vs → ed = Some ve →
       instant_of iso_samples vs = Some ts →
       instant_of iso_samples ve = Some te →
       ts = clock env ∨ te = clock env →
       ∃ msg, _validate_booking_dates iso_samples env sd ed = Invalid msg).
Proof.
  intros H.
  destruct (H env0 (Some (Instant (aware jan1)))
              (Some (Instant (aware (jan1 + hour))))
              (Instant (aware jan1)) (Instant (aware (jan1 + hour)))
              jan1 (jan1 + hour)) as [msg Hmsg];
    try reflexivity; [left; reflexivity|].
  vm_compute in Hmsg. discriminate.
Qed.

Lemma validate_booking_dates_spec_witness :
  (∃ msg, _validate_booking_dates iso_samples env0
            (Some (Str "2030-01-02T00:00:00+00:00")) (Some (Str "yesterday"))
          = Invalid msg)
  ∧ _validate_booking_dates iso_samples env0
      (Some (Str "2030-01-02T00:00:00+00:00"))
      (Some (Str "2030-01-02T01:00:00"))
    = Valid (aware (jan1 + day)) (aware (jan1 + day + hour)).
Proof.
  split.
  - apply (proj1 (validate_booking_dates_spec iso_samples env0 _ _)).
    right; right; left. exists (Str "yesterday"). split; [right|]; reflexivity.
  - destruct (_validate_booking_dates iso_samples env0
                (Some (Str "2030-01-02T00:00:00+00:00"))
                (Some (Str "2030-01-02T01:00:00"))) as [msg|st e] eqn:E.
    + vm_compute in E. discriminate.
    + destruct (proj2 (validate_booking_dates_spec iso_samples env0 _ _) _ _ E)
        as (vs & ve & ds & de & [= <-] & [= <-] & [= <-] & [= <-] & -> & -> & _).
      reflexivity.
Defined.

(** ** Expiry: the status resolver against the availability filter *)

Lemma check_room_available_true env s room st e :
  _check_room_available env s room st e = true
  ↔ ∀ k b, bookings s !! k = Some b →
           blocking_row (_get_expired_threshold env) room st e b = false.
Proof.
  unfold _check_room_available.
  destruct (query_first _ _) as [[k b]|] eqn:E.
  - split; [discriminate|]. intros H.
    apply query_first_Some in E as [Hk Hb]. rewrite (H _ _ Hk) in Hb.
    discriminate.
  - split; [|reflexivity]. intros _ k b Hk.
    exact (proj1 (query_first_None _ _) E k b Hk).
Qed.

Lemma check_room_available_false env s room st e :
  _check_room_available env s room st e = false
  ↔ ∃ k b, bookings s !! k = Some b
           ∧ blocking_row (_get_expired_threshold env) room st e b = true.
Proof.
  unfold _check_room_available.
  destruct (query_first _ _) as [[k b]|] eqn:E.
  - split; [|reflexivity]. intros _. apply query_first_Some in E. eauto.
  - split; [discriminate|]. intros (k & b & Hk & Hb).
    pose proof (proj1 (query_first_None _ _) E k b Hk) as E'. simpl in E'.
    congruence.
Qed.

Lemma col_gt_threshold env (c : stored_datetime) :
  col_gt (Some c) (_get_expired_threshold env)
  = (clock env - timedelta_minutes (hold_minutes env) <? timestamp c).
Proof. simpl. rewrite timestamp_loaded. reflexivity. Qed.

(** A 'pending' row created strictly before the threshold is reported as
    'expired' and passes no availability filter. *)
Lemma expired_reports_and_never_blocks env b (c : stored_datetime) room st e :
  status b = "pending" → created_at b = Some c →
  timestamp c < clock env - timedelta_minutes (hold_minutes env) →
  determine_booking_status env b = "expired"
  ∧ blocking_row (_get_expired_threshold env) room st e b = false.
Proof.
  intros Hst Hc Hlt. split.
  - unfold determine_booking_status, dt_lt.
    rewrite Hst, Hc, timestamp_utc_if_naive, timestamp_threshold. simpl.
    apply Z.ltb_lt in Hlt. rewrite Hlt. reflexivity.
  - unfold blocking_row. rewrite Hst, Hc, col_gt_threshold. simpl.
    assert ((clock env - timedelta_minutes (hold_minutes env) <? timestamp c)
            = false) as -> by (apply Z.ltb_ge; lia).
    rewrite andb_false_r. reflexivity.
Qed.

(** Whatever the resolver reports as 'expired' is stored as 'pending' or
    carries the word itself, and in both cases blocks nothing. *)
Lemma reported_expired_never_blocks env b room st e :
  determine_booking_status env b = "expired" →
  blocking_row (_get_expired_threshold env) room st e b = false.
Proof.
  unfold determine_booking_status, blocking_row, dt_lt.
  destruct (String.eqb_spec (status b) "pending") as [Hp|Hp].
  - destruct (String.eqb (status b) "confirmed") eqn:Hc;
      [apply String.eqb_eq in Hc; congruence|].
    destruct (created_at b) as [c|]; [|intros _; apply andb_false_r].
    rewrite timestamp_utc_if_naive, timestamp_threshold, col_gt_threshold.
    destruct (Z.ltb_spec (timestamp c)
                (clock env - timedelta_minutes (hold_minutes env)));
      [|congruence].
    intros _.
    assert ((clock env - timedelta_minutes (hold_minutes env) <? timestamp c)
            = false) as -> by (apply Z.ltb_ge; lia).
    apply andb_false_r.
  - intros ->. simpl. apply andb_false_r.
Qed.

(** C3, at the boundary.  The clock reads 2030-01-01T00:00:00Z, the hold is
    the default five minutes, and room 1 has one 'pending' booking created
    exactly five minutes ago, so that its created_at equals the expiry
    threshold.  The status resolver reports it as 'pending', not 'expired',
    while the availability filter does not count it: the room is available
    for the booking's own window, and [confirm_booking] refuses the booking
    as not pending. *)
Theorem resolver_and_availability_split_at_threshold :
  (λ c : stored_datetime, utc_if_naive c)
    <$> created_at (sample_booking "pending" (jan1 - 5 * minute))
    = Some (_get_expired_threshold env0)
  ∧ determine_booking_status env0 (sample_booking "pending" (jan1 - 5 * minute))
    = "pending"
  ∧ blocking_row (_get_expired_threshold env0) 1
      (aware (jan1 + day)) (aware (jan1 + day + hour))
      (sample_booking "pending" (jan1 - 5 * minute)) = false
  ∧ _check_room_available env0
      (store_with (sample_booking "pending" (jan1 - 5 * minute))) 1
      (aware (jan1 + day)) (aware (jan1 + day + hour)) = true
  ∧ fst (confirm_booking env0
           (store_with (sample_booking "pending" (jan1 - 5 * minute))) 1)
    = Error "Booking not found or not pending.".
Proof. vm_compute. repeat split. Qed.

(** ** create_booking and update_booking *)

Section Lifecycle.

Variable fromisoformat : string → option datetime.

Local Abbreviation _validate_booking_dates :=
  (_validate_booking_dates fromisoformat).
Local Abbreviation create_booking := (create_booking fromisoformat).
Local Abbreviation update_booking := (update_booking fromisoformat).

Lemma retrieve_user_frame s name mail :
  rooms (snd (retrieve_user s name mail)) = rooms s
  ∧ bookings (snd (retrieve_user s name mail)) = bookings s.
Proof. unfold retrieve_user. destruct (find _ _); split; reflexivity. Qed.

(** The availability filter reads the bookings table only. *)
Lemma check_room_available_bookings env s s' room st e :
  bookings s = bookings s' →
  _check_room_available env s room st e = _check_room_available env s' room st e.
Proof. unfold _check_room_available. intros ->. reflexivity. Qed.

Lemma valid_truthy env sd ed st e :
  _validate_booking_dates env sd ed = Valid st e →
  truthy_date sd = true ∧ truthy_date ed = true.
Proof.
  unfold BookingService._validate_booking_dates.
  destruct (truthy_date sd), (truthy_date ed); simpl; try discriminate. auto.
Qed.

(** [create_booking] once its arguments are present, the dates validate and
    the room exists: the user is resolved first, then availability decides
    between the error and the insert. *)
Lemma create_booking_valid env s rid r name mail sd ed st e status' :
  rid ≠ 0 → name ≠ "" → mail ≠ "" →
  _validate_booking_dates env sd ed = Valid st e →
  rooms s !! rid = Some r →
  create_booking env s (Some rid) (Some name) (Some mail) sd ed status' =
    let user := fst (retrieve_user s name mail) in
    let s1 := snd (retrieve_user s name mail) in
    if _check_room_available env s rid st e
    then (Success "Booking created successfully." (Some (next_id (bookings s))),
          set_bookings s1
            (<[next_id (bookings s) :=
                 {| room_id := rid; user_id := uid user;
                    start_date := Some (stored st);
                    end_date := Some (stored e);
                    status := status';
                    created_at := created_at_default env |}]> (bookings s)))
    else (room_unavailable, s1).
Proof.
  intros Hrid Hname Hmail Hval Hroom.
  destruct (valid_truthy _ _ _ _ _ Hval) as [Hs He].
  unfold BookingService.create_booking. simpl.
  apply Z.eqb_neq in Hrid. apply String.eqb_neq in Hname, Hmail.
  rewrite Hrid, Hname, Hmail, Hs, He, Hval, Hroom. simpl.
  destruct (retrieve_user_frame s name mail) as [_ Hb].
  destruct (retrieve_user s name mail) as [user s1]. simpl in *.
  rewrite (check_room_available_bookings env s1 s) by exact Hb.
  rewrite Hb. destruct (_check_room_available env s rid st e); reflexivity.
Qed.

(** [create_booking] never touches a row that is already stored. *)
Lemma create_booking_keeps_rows env s room name mail sd ed status' k b :
  bookings s !! k = Some b →
  bookings (snd (create_booking env s room name mail sd ed status')) !! k
  = Some b.
Proof.
  intros Hk. unfold BookingService.create_booking.
  destruct room as [rid|]; [|exact Hk].
  destruct name as [name|]; [|exact Hk].
  destruct mail as [mail|]; [|exact Hk].
  destruct (negb _); [exact Hk|].
  destruct (_validate_booking_dates env sd ed) as [msg|st e]; [exact Hk|].
  destruct (rooms s !! rid); [|exact Hk].
  destruct (retrieve_user_frame s name mail) as [_ Hb].
  destruct (retrieve_user s name mail) as [user s1]. simpl in Hb.
  destruct (negb _); simpl; rewrite Hb; [exact Hk|].
  rewrite lookup_insert_ne; [exact Hk|].
  intros Heq. rewrite <- Heq, next_id_fresh in Hk. discriminate.
Qed.


(** A row that blocks, tested against a window that overlaps its own as the
    store compares them: wall-clock reading against wall-clock reading. *)
Lemma blocking_row_own_window env b (bs be c : stored_datetime) st e :
  start_date b = Some bs → end_date b = Some be →
  timestamp bs < wall e → wall st < timestamp be →
  status b = "confirmed"
  ∨ (status b = "pending" ∧ created_at b = Some c
     ∧ clock env - timedelta_minutes (hold_minutes env) < timestamp c) →
  blocking_row (_get_expired_threshold env) (room_id b) st e b = true.
Proof.
  intros Hbs Hbe H1 H2 Hst. unfold blocking_row.
  rewrite Z.eqb_refl, Hbs, Hbe. simpl.
  rewrite timestamp_loaded in H1, H2.
  apply Z.ltb_lt in H1, H2. rewrite H1, H2. simpl.
  destruct Hst as [->|(-> & -> & Hc)]; [reflexivity|].
  rewrite col_gt_threshold. apply Z.ltb_lt in Hc. rewrite Hc. reflexivity.
Qed.

End Lifecycle.

Section LifecycleClaims.

Variable fromisoformat : string → option datetime.

Local Abbreviation _validate_booking_dates :=
  (_validate_booking_dates fromisoformat).
Local Abbreviation create_booking := (create_booking fromisoformat).
Local Abbreviation update_booking := (update_booking fromisoformat).

(** C1, as the code has it.  In a store where the room exists and has no
    bookings, [create_booking] with all arguments present and a window that
    validates succeeds: it answers with the id of a new row, stored as
    'pending' for that room with the wall-clock readings of the window and
    the clock as its creation time, and changes no other row.  A second
    [create_booking] for the same room and the identical window answers
    'Room is not available for the selected time range.' and leaves the
    bookings table exactly as the first call left it, provided that the
    window still validates at the second call, that the first hold has not
    run out (the clock less the hold duration is still before the first
    call's clock), and that the start of the window precedes its end as
    wall-clock readings too, as it does when both carry the same UTC
    offset. *)
Theorem create_then_create_again env1 s rid r name mail sd ed st e :
  rid ≠ 0 → name ≠ "" → mail ≠ "" →
  rooms s !! rid = Some r →
  (∀ k b, bookings s !! k = Some b → room_id b ≠ rid) →
  _validate_booking_dates env1 sd ed = Valid st e →
  ∃ id s1 b,
    create_booking env1 s (Some rid) (Some name) (Some mail) sd ed "pending"
    = (Success "Booking created successfully." (Some id), s1)
    ∧ bookings s !! id = None
    ∧ bookings s1 = <[id := b]> (bookings s)
    ∧ status b = "pending" ∧ room_id b = rid
    ∧ start_date b = Some (stored st) ∧ end_date b = Some (stored e)
    ∧ created_at b = Some (stored (datetime_now env1))
    ∧ ∀ env2 name2 mail2,
        name2 ≠ "" → mail2 ≠ "" →
        _validate_booking_dates env2 sd ed = Valid st e →
        clock env2 - timedelta_minutes (hold_minutes env2) < clock env1 →
        wall st < wall e →
        fst (create_booking env2 s1 (Some rid) (Some name2) (Some mail2)
               sd ed "pending") = room_unavailable
        ∧ bookings (snd (create_booking env2 s1 (Some rid) (Some name2)
                           (Some mail2) sd ed "pending")) = bookings s1.
Proof.
  intros Hrid Hname Hmail Hroom Hfree Hval1.
  rewrite (create_booking_valid _ env1 s rid r name mail sd ed st e) by done.
  assert (_check_room_available env1 s rid st e = true) as ->.
  { apply check_room_available_true. intros k b Hk. unfold blocking_row.
    destruct (Z.eqb_spec (room_id b) rid) as [Heq|_]; [|reflexivity].
    destruct (Hfree _ _ Hk Heq). }
  cbv zeta.
  set (b := {| room_id := rid;
               user_id := uid (fst (retrieve_user s name mail));
               start_date := Some (stored st); end_date := Some (stored e);
               status := "pending";
               created_at := created_at_default env1 |}).
  set (s1 := set_bookings (snd (retrieve_user s name mail))
               (<[next_id (bookings s) := b]> (bookings s))).
  exists (next_id (bookings s)), s1, b.
  assert (rooms s1 !! rid = Some r) as Hroom1.
  { unfold s1. simpl. rewrite (proj1 (retrieve_user_frame s name mail)).
    exact Hroom. }
  split; [reflexivity|]. split; [apply next_id_fresh|].
  split; [unfold s1; simpl; reflexivity|].
  do 5 (split; [reflexivity|]).
  intros env2 name2 mail2 Hname2 Hmail2 Hval2 Hhold Hwall.
  assert (_check_room_available env2 s1 rid st e = false) as Hblocked.
  { apply check_room_available_false. exists (next_id (bookings s)), b.
    split; [apply lookup_insert_eq|].
    apply (blocking_row_own_window env2 b (stored st) (stored e)
             (stored (datetime_now env1)));
      try reflexivity; try (rewrite timestamp_loaded; exact Hwall).
    right. rewrite timestamp_loaded. auto. }
  rewrite (create_booking_valid _ env2 s1 rid r name2 mail2 sd ed st e) by done.
  rewrite Hblocked. cbv zeta. split; [reflexivity|].
  apply (proj2 (retrieve_user_frame s1 name2 mail2)).
Qed.

(** C10. When [create_booking] answers 'Room is not available for the
    selected time range.', the rooms and bookings tables are as before, but
    the user has already been resolved: if no stored user had the given
    email, the users table now ends with a new user of that name and email
    with the empty password, under an id no stored user had. *)
Theorem create_booking_unavailable_keeps_user env s room name mail sd ed status' :
  fst (create_booking env s room (Some name) (Some mail) sd ed status')
  = room_unavailable →
  rooms (snd (create_booking env s room (Some name) (Some mail) sd ed status'))
  = rooms s
  ∧ bookings (snd (create_booking env s room (Some name) (Some mail) sd ed status'))
    = bookings s
  ∧ ((∀ u, u ∈ users s → email u ≠ mail) →
     ∃ i, users (snd (create_booking env s room (Some name) (Some mail)
                        sd ed status'))
          = (users s ++ [{| uid := i; username := name; email := mail;
                            password := "" |}])%list
          ∧ ∀ u, u ∈ users s → uid u ≠ i).
Proof.
  unfold BookingService.create_booking, room_unavailable.
  destruct room as [rid|]; [|discriminate].
  destruct (negb _); [discriminate|].
  destruct (_validate_booking_dates env sd ed) as [msg|st e] eqn:Hval.
  { simpl. intros [= ->]. exfalso. revert Hval.
    unfold BookingService._validate_booking_dates.
    destruct (negb _); [discriminate|].
    destruct (_ ≫= _); [|discriminate]. destruct (_ ≫= _); [|discriminate].
    destruct (dt_ge _ _); [discriminate|].
    destruct (_ || _); discriminate. }
  destruct (rooms s !! rid); [|discriminate].
  destruct (retrieve_user_frame s name mail) as [Hr Hb].
  pose proof (retrieve_user_unknown s name mail) as Hnew.
  destruct (retrieve_user s name mail) as [user s1]. simpl in Hr, Hb.
  destruct (negb _); [|discriminate]. simpl. intros _.
  split; [exact Hr|]. split; [exact Hb|].
  intros Hnone. injection (Hnew Hnone) as _ ->.
  exists (next_uid (users s)). split; [reflexivity|].
  intros u Hu. apply next_uid_fresh, Hu.
Qed.


Lemma terminal_row_unchanged env op s k b :
  bookings s !! k = Some b →
  (∀ sd ed st, op ≠ UpdateBooking k sd ed st) →
  status b = "cancelled" ∨ (status b = "released" ∧ op ≠ CancelBooking k) →
  bookings (snd (run fromisoformat env op s)) !! k = Some b.
Proof.
  intros Hk Hupd Hterm.
  assert (status b ≠ "pending") as Hnp by (destruct Hterm as [->|[-> _]]; discriminate).
  destruct op as [room name mail sd ed st|id sd ed st|id|id|id]; simpl.
  - apply create_booking_keeps_rows, Hk.
  - assert (id ≠ k) as Hne by (intros ->; eapply Hupd; reflexivity).
    unfold BookingService.update_booking.
    destruct (bookings s !! id) as [b'|]; [|exact Hk].
    destruct (BookingService._validate_booking_dates _ _ _ _) as [msg|st' e'];
      [exact Hk|].
    destruct (_ && _); [exact Hk|]. simpl. rewrite lookup_insert_ne; auto.
  - rewrite confirm_booking_eq.
    destruct (bookings s !! id) as [b'|] eqn:Hid; [|exact Hk].
    destruct (String.eqb_spec (status b') "pending") as [Hp|Hp]; [|exact Hk].
    simpl. destruct (col_gt _ _); [|exact Hk]. simpl.
    rewrite lookup_insert_ne; [exact Hk|]. intros ->. congruence.
  - unfold cancel_booking.
    destruct (bookings s !! id) as [b'|] eqn:Hid; [|exact Hk].
    destruct (match end_date b' with Some _ => _ | None => _ end); [exact Hk|].
    simpl. destruct (decide (id = k)) as [->|Hne].
    + rewrite lookup_insert_eq. rewrite Hk in Hid. injection Hid as <-.
      destruct Hterm as [Hc|[_ Hn]]; [|destruct Hn; reflexivity].
      destruct b; simpl in *. subst. reflexivity.
    + rewrite lookup_insert_ne; auto.
  - rewrite release_booking_eq.
    destruct (bookings s !! id) as [b'|] eqn:Hid; [|exact Hk].
    destruct (String.eqb_spec (status b') "pending") as [Hp|Hp]; [|exact Hk].
    simpl. rewrite lookup_insert_ne; [exact Hk|]. intros ->. congruence.
Qed.

(** C2, as the code has it.  A row stored as 'cancelled' or 'released' is
    left exactly as it is by every call of the core except two.  One is a
    [cancel_booking] of that very row while it is stored as 'released':
    unless its end_date has passed, when the call is refused and nothing
    changes, the stored status becomes 'cancelled'.  The other is an
    [update_booking] of that very row: when it succeeds the stored status
    is the status it was given, and when it answers an error the store is
    as it was. *)
Theorem terminal_row_kept env s k b :
  bookings s !! k = Some b →
  status b = "cancelled" ∨ status b = "released" →
  (∀ op, (∀ sd ed st, op ≠ UpdateBooking k sd ed st) →
         status b = "cancelled" ∨ op ≠ CancelBooking k →
         bookings (snd (run fromisoformat env op s)) !! k = Some b)
  ∧ (status b = "released" →
     (∀ e : stored_datetime, end_date b = Some e → clock env ≤ timestamp e) →
     ∃ b', bookings (snd (cancel_booking env s k)) !! k = Some b'
           ∧ status b' = "cancelled")
  ∧ (∀ e : stored_datetime,
       end_date b = Some e → timestamp e < clock env →
       snd (cancel_booking env s k) = s)
  ∧ (∀ sd ed st,
       (∀ m o, fst (update_booking env s k sd ed st) = Success m o →
               ∃ b', bookings (snd (update_booking env s k sd ed st)) !! k
                     = Some b'
                     ∧ status b' = st)
       ∧ (∀ msg, fst (update_booking env s k sd ed st) = Error msg →
                 snd (update_booking env s k sd ed st) = s)).
Proof.
  intros Hk Hterm. split; [|split; [|split]].
  - intros op Hupd Hcancel. apply terminal_row_unchanged; auto.
    destruct Hterm as [Hc|Hr]; [auto|].
    destruct Hcancel as [Hc|Hn]; auto.
  - intros Hrel Hend. unfold cancel_booking. rewrite Hk.
    assert (match end_date b with
            | Some e => dt_lt (utc_if_naive e) (datetime_now env)
            | None => false
            end = false) as ->.
    { destruct (end_date b) as [e|]; [|reflexivity]. unfold dt_lt.
      rewrite timestamp_utc_if_naive, timestamp_now. apply Z.ltb_ge. auto. }
    simpl. exists (set_status b "cancelled").
    rewrite lookup_insert_eq. split; reflexivity.
  - intros e He Hpast. unfold cancel_booking. rewrite Hk, He.
    unfold dt_lt. rewrite timestamp_utc_if_naive, timestamp_now.
    apply Z.ltb_lt in Hpast. rewrite Hpast. reflexivity.
  - intros sd ed st. unfold update_booking, BookingService.update_booking.
    rewrite Hk.
    destruct (BookingService._validate_booking_dates _ _ _ _) as [msg|st' e'].
    { split; [discriminate|reflexivity]. }
    destruct (_ && _).
    { split; [discriminate|reflexivity]. }
    split; [|discriminate]. intros m o _. simpl.
    eexists. rewrite lookup_insert_eq. split; reflexivity.
Qed.

End LifecycleClaims.

(** ** The claims on the sample data *)

Lemma create_then_create_again_witness :
  ∃ id s1 b,
    create_booking iso_samples env0 fresh_store (Some 1) (Some "Test User")
      (Some "test@example.com") sample_start sample_end "pending"
    = (Success "Booking created successfully." (Some id), s1)
    ∧ status b = "pending" ∧ room_id b = 1
    ∧ bookings s1 = <[id := b]> (bookings fresh_store)
    ∧ fst (create_booking iso_samples env_1min s1 (Some 1) (Some "user2")
             (Some "user2@example.com") sample_start sample_end "pending")
      = room_unavailable
    ∧ bookings (snd (create_booking iso_samples env_1min s1 (Some 1)
                       (Some "user2") (Some "user2@example.com")
                       sample_start sample_end "pending"))
      = bookings s1.
Proof.
  destruct (create_then_create_again iso_samples env0 fresh_store 1
              test_room "Test User" "test@example.com"
              sample_start sample_end
              (aware (jan1 + day)) (aware (jan1 + day + hour))
              ltac:(discriminate) ltac:(discriminate) ltac:(discriminate)
              eq_refl ltac:(intros k b0 Hk; inversion Hk) eq_refl)
    as (id & s1 & b & H1 & _ & Hs1 & Hst & Hroom & _ & _ & _ & Hagain).
  exists id, s1, b.
  do 4 (split; [assumption|]).
  apply (Hagain env_1min "user2" "user2@example.com");
    try discriminate; reflexivity.
Defined.

(** C1 fails as stated, in two ways.  First, once the first hold has run
    out the same second call goes through: six minutes later, with the
    default hold of five, the room is booked twice for the sample window,
    which validates at both calls.  Second, and with no time passing at
    all: a window from 10:00 at UTC to 09:30 at UTC-5 validates, its start
    being four and a half hours before its end, but is stored as 10:00 to
    09:30.  The stored start is not before the end the second call asks
    for, so the filter lets the row pass and the second call books the room
    again. *)
Lemma second_create_not_refused :
  ¬ (∀ env1 env2 s rid r name mail sd ed st e,
       rid ≠ 0 → name ≠ "" → mail ≠ "" →
       rooms s !! rid = Some r →
       (∀ k b, bookings s !! k = Some b → room_id b ≠ rid) →
       _validate_booking_dates iso_samples env1 sd ed = Valid st e →
       _validate_booking_dates iso_samples env2 sd ed = Valid st e →
       clock env1 ≤ clock env2 →
       wall st < wall e →
       fst (create_booking iso_samples env2
              (snd (create_booking iso_samples env1 s (Some rid) (Some name)
                      (Some mail) sd ed "pending"))
              (Some rid) (Some name) (Some mail) sd ed "pending")
       = room_unavailable)
  ∧ ¬ (∀ env s rid r name mail sd ed st e,
         rid ≠ 0 → name ≠ "" → mail ≠ "" →
         rooms s !! rid = Some r →
         (∀ k b, bookings s !! k = Some b → room_id b ≠ rid) →
         _validate_booking_dates iso_samples env sd ed = Valid st e →
         fst (create_booking iso_samples env
                (snd (create_booking iso_samples env s (Some rid) (Some name)
                        (Some mail) sd ed "pending"))
                (Some rid) (Some name) (Some mail) sd ed "pending")
         = room_unavailable).
Proof.
  split; intros H.
  - specialize (H env0 env_6min fresh_store 1 test_room "Test User"
                  "test@example.com" sample_start sample_end _ _
                  ltac:(discriminate) ltac:(discriminate) ltac:(discriminate)
                  eq_refl
                  ltac:(intros k b Hk; inversion Hk) eq_refl eq_refl
                  ltac:(discriminate) ltac:(reflexivity)).
    vm_compute in H. discriminate.
  - specialize (H env0 fresh_store 1 test_room "Test User" "test@example.com"
                  offset_start offset_end _ _
                  ltac:(discriminate) ltac:(discriminate) ltac:(discriminate)
                  eq_refl
                  ltac:(intros k b Hk; inversion Hk) eq_refl).
    vm_compute in H. discriminate.
Qed.

(** What the calls of the counterexample answer. *)
Example create_again_after_hold :
  fst (create_booking iso_samples env0 fresh_store (Some 1)
         (Some "Test User") (Some "test@example.com")
         sample_start sample_end "pending")
  = Success "Booking created successfully." (Some 1)
  ∧ fst (create_booking iso_samples env_6min
           (snd (create_booking iso_samples env0 fresh_store (Some 1)
                   (Some "Test User") (Some "test@example.com")
                   sample_start sample_end "pending"))
           (Some 1) (Some "user2") (Some "user2@example.com")
           sample_start sample_end "pending")
    = Success "Booking created successfully." (Some 2).
Proof. split; vm_compute; reflexivity. Qed.

Example create_again_offset_window :
  fst (create_booking iso_samples env0 fresh_store (Some 1)
         (Some "Test User") (Some "test@example.com")
         offset_start offset_end "pending")
  = Success "Booking created successfully." (Some 1)
  ∧ fst (create_booking iso_samples env0
           (snd (create_booking iso_samples env0 fresh_store (Some 1)
                   (Some "Test User") (Some "test@example.com")
                   offset_start offset_end "pending"))
           (Some 1) (Some "user2") (Some "user2@example.com")
           offset_start offset_end "pending")
    = Success "Booking created successfully." (Some 2).
Proof. split; vm_compute; reflexivity. Qed.

(** C2 fails as stated: [cancel_booking] turns a stored 'released' into
    'cancelled'.  Room 1 has one booking, stored as 'released', whose window
    lies a day ahead of the clock. *)
Lemma terminal_status_changed_by_cancel :
  ¬ (∀ env op s k b,
       bookings s !! k = Some b →
       status b = "cancelled" ∨ status b = "released" →
       ∃ b', bookings (snd (run iso_samples env op s)) !! k = Some b'
             ∧ status b' = status b).
Proof.
  intros H.
  destruct (H env0 (CancelBooking 1) (store_with (sample_booking "released" jan1))
              1 (sample_booking "released" jan1))
    as (b' & Hb' & Hst); [reflexivity|right; reflexivity|].
  vm_compute in Hb'. injection Hb' as <-. discriminate.
Qed.

(** [update_booking] does the same to a 'cancelled' row: given a window that
    validates it stores whatever status it is handed. *)
Example update_revives_cancelled :
  status <$> bookings (snd (update_booking iso_samples env0
                              (store_with (sample_booking "cancelled" jan1)) 1
                              sample_start sample_end "pending")) !! 1
  = Some "pending".
Proof. vm_compute. reflexivity. Qed.

Lemma terminal_row_kept_witness :
  bookings (snd (run iso_samples env0 (ConfirmBooking 1)
                   (store_with (sample_booking "cancelled" jan1)))) !! 1
  = Some (sample_booking "cancelled" jan1)
  ∧ (∃ b', bookings (snd (cancel_booking env0
                            (store_with (sample_booking "released" jan1)) 1))
             !! 1 = Some b'
           ∧ status b' = "cancelled")
  ∧ (∃ b', bookings (snd (update_booking iso_samples env0
                            (store_with (sample_booking "cancelled" jan1)) 1
                            sample_start sample_end "pending"))
             !! 1 = Some b'
           ∧ status b' = "pending")
  ∧ snd (update_booking iso_samples env0
           (store_with (sample_booking "released" jan1)) 1
           sample_start sample_start "pending")
    = store_with (sample_booking "released" jan1).
Proof.
  split; [|split; [|split]].
  - apply (proj1 (terminal_row_kept iso_samples env0
                    (store_with (sample_booking "cancelled" jan1)) 1
                    (sample_booking "cancelled" jan1) eq_refl
                    (or_introl eq_refl)) (ConfirmBooking 1));
      [discriminate|left; reflexivity].
  - apply (proj1 (proj2 (terminal_row_kept iso_samples env0
                    (store_with (sample_booking "released" jan1)) 1
                    (sample_booking "released" jan1) eq_refl
                    (or_intror eq_refl))) eq_refl).
    intros e [= <-]. vm_compute. discriminate.
  - apply (proj1 (proj2 (proj2 (proj2 (terminal_row_kept iso_samples env0
                    (store_with (sample_booking "cancelled" jan1)) 1
                    (sample_booking "cancelled" jan1) eq_refl
                    (or_introl eq_refl))))
                  sample_start sample_end "pending")
             "Booking updated successfully." (Some 1)).
    reflexivity.
  - apply (proj2 (proj2 (proj2 (proj2 (terminal_row_kept iso_samples env0
                    (store_with (sample_booking "released" jan1)) 1
                    (sample_booking "released" jan1) eq_refl
                    (or_intror eq_refl))))
                  sample_start sample_start "pending")
             "start_date must be before end_date.").
    reflexivity.
Defined.



Lemma create_booking_unavailable_keeps_user_witness :
  ∃ i, users (snd (create_booking iso_samples env0
                     (store_with (sample_booking "confirmed" jan1)) (Some 1)
                     (Some "user2") (Some "user2@example.com")
                     sample_start sample_end "pending"))
       = [testuser;
          {| uid := i; username := "user2"; email := "user2@example.com";
             password := "" |}]
       ∧ i ≠ 1.
Proof.
  destruct (create_booking_unavailable_keeps_user iso_samples env0
              (store_with (sample_booking "confirmed" jan1)) (Some 1)
              "user2" "user2@example.com" sample_start sample_end "pending"
              eq_refl) as (_ & _ & Hnew).
  destruct Hnew as (i & Hi & Hfresh).
  - intros u Hu. apply list_elem_of_singleton in Hu as ->. discriminate.
  - exists i. split; [exact Hi|].
    intros ->. apply (Hfresh testuser); [|reflexivity].
    apply list_elem_of_singleton. reflexivity.
Defined.

Lemma confirm_booking_spec_witness :
  fst (confirm_booking env_1min (store_with (sample_booking "pending" jan1)) 1)
  = Success "Booking confirmed successfully." None
  ∧ (∃ b', bookings (snd (confirm_booking env_1min
                            (store_with (sample_booking "pending" jan1)) 1))
             !! 1 = Some b'
           ∧ status b' = "confirmed")
  ∧ confirm_booking env_6min (store_with (sample_booking "pending" jan1)) 1
    = (Error "Booking not found or not pending.",
       store_with (sample_booking "pending" jan1)).
Proof.
  assert (fst (confirm_booking env_1min
                 (store_with (sample_booking "pending" jan1)) 1)
          = Success "Booking confirmed successfully." None) as Hok.
  { apply (proj1 (confirm_booking_spec env_1min
                    (store_with (sample_booking "pending" jan1)) 1)).
    exists (sample_booking "pending" jan1), (mk_stored jan1).
    repeat split; reflexivity. }
  split; [exact Hok|]. split.
  - destruct (proj1 (proj2 (confirm_booking_spec env_1min
                              (store_with (sample_booking "pending" jan1)) 1))
                (sample_booking "pending" jan1) eq_refl Hok)
      as ((b' & Hb' & Hst & _) & _).
    exists b'. split; assumption.
  - apply (proj2 (proj2 (confirm_booking_spec env_6min
                           (store_with (sample_booking "pending" jan1)) 1))).
    vm_compute. discriminate.
Defined.


Lemma release_booking_spec_witness :
  determine_booking_status env_6min (sample_booking "pending" jan1) = "expired"
  ∧ fst (release_booking (store_with (sample_booking "pending" jan1)) 1)
    = Success "Booking released successfully." None
  ∧ status <$> bookings (snd (release_booking
                                (store_with (sample_booking "pending" jan1)) 1))
               !! 1
    = Some "released"
  ∧ release_booking (store_with (sample_booking "confirmed" jan1)) 1
    = (Error "Booking not found or not pending.",
       store_with (sample_booking "confirmed" jan1)).
Proof.
  split; [reflexivity|].
  destruct (proj1 (proj2 (proj2 (release_booking_spec
                                   (store_with (sample_booking "pending" jan1))
                                   1)))
              env_6min (sample_booking "pending" jan1)
              eq_refl eq_refl eq_refl) as [Hok Hreleased].
  split; [exact Hok|]. split; [exact Hreleased|].
  apply (proj1 (proj2 (proj2 (proj2 (release_booking_spec
                                  (store_with (sample_booking "confirmed" jan1))
                                  1))))
           (sample_booking "confirmed" jan1));
    reflexivity.
Defined.

Lemma retrieve_user_spec_witness :
  (∃ u, retrieve_user (store_with (sample_booking "pending" jan1))
          "Somebody Else" "test@example.com"
        = (u, store_with (sample_booking "pending" jan1))
        ∧ u ∈ [testuser])
  ∧ ∃ i, fst (retrieve_user fresh_store "Test User" "test@example.com")
         = {| uid := i; username := "Test User"; email := "test@example.com";
              password := "" |}.
Proof.
  split.
  - destruct (proj1 (retrieve_user_spec
                       (store_with (sample_booking "pending" jan1))
                       "Somebody Else" "test@example.com") testuser)
      as (u & Hu & Hin & _); [apply list_elem_of_singleton|..]; try reflexivity.
    exists u. split; [exact Hu|exact Hin].
  - destruct (proj2 (retrieve_user_spec fresh_store "Test User"
                       "test@example.com")) as (i & Hi & _).
    + intros u Hu. inversion Hu.
    + exists i. rewrite Hi. reflexivity.
Defined.

(** * Further properties of the service *)

(** ** Parsing and validation *)

Section MoreValidation.

Variable fromisoformat : string → option datetime.

Local Abbreviation _parse_datetime := (_parse_datetime fromisoformat).
Local Abbreviation _validate_booking_dates :=
  (_validate_booking_dates fromisoformat).

(** X1. Whatever [_parse_datetime] returns carries a time zone, denotes the
    instant of its argument, and is a fixed point of the function: parsing
    it again as a datetime object returns it unchanged. *)
Theorem parse_datetime_fixed_point v d :
  _parse_datetime v = Some d →
  tzinfo d ≠ None
  ∧ instant_of fromisoformat v = Some (timestamp d)
  ∧ _parse_datetime (Instant d) = Some d.
Proof.
  rewrite parse_datetime_eq. unfold instant_of.
  destruct (datetime_of fromisoformat v) as [d0|]; [|discriminate].
  simpl. intros [= <-]. split; [apply utc_if_naive_aware|].
  split; [rewrite timestamp_utc_if_naive; reflexivity|].
  rewrite (utc_if_naive_id (utc_if_naive d0)); [reflexivity|].
  apply utc_if_naive_aware.
Qed.

(** X2. The two datetimes a successful validation returns validate to
    themselves: handed back as datetime objects, at the same clock, they are
    accepted and returned unchanged. *)
Theorem validate_booking_dates_stable env sd ed st e :
  _validate_booking_dates env sd ed = Valid st e →
  _validate_booking_dates env (Some (Instant st)) (Some (Instant e))
  = Valid st e.
Proof.
  intros H.
  destruct (validate_Valid_inv _ _ _ _ _ _ H)
    as (vs & ve & ds & de & _ & _ & _ & _ & -> & -> & Hlt & H1 & H2).
  rewrite (validate_parsed fromisoformat env _ _ (Instant (utc_if_naive ds))
             (Instant (utc_if_naive de)) (utc_if_naive ds) (utc_if_naive de))
    by reflexivity.
  destruct (Z.leb_spec (timestamp (utc_if_naive de))
              (timestamp (utc_if_naive ds))); [lia|].
  destruct (Z.ltb_spec (timestamp (utc_if_naive ds)) (clock env)); [lia|].
  destruct (Z.ltb_spec (timestamp (utc_if_naive de)) (clock env)); [lia|].
  simpl.
  rewrite (utc_if_naive_id (utc_if_naive ds)) by apply utc_if_naive_aware.
  rewrite (utc_if_naive_id (utc_if_naive de)) by apply utc_if_naive_aware.
  reflexivity.
Qed.

(** X3. Validation depends on the clock only through the test against the
    past: a window accepted at one clock is accepted, with the same result,
    at every earlier clock, and a window refused at one clock is refused at
    every later one. *)
Theorem validate_booking_dates_clock env env' sd ed :
  clock env' ≤ clock env →
  (∀ st e, _validate_booking_dates env sd ed = Valid st e →
           _validate_booking_dates env' sd ed = Valid st e)
  ∧ (∀ msg, _validate_booking_dates env' sd ed = Invalid msg →
            ∃ msg', _validate_booking_dates env sd ed = Invalid msg').
Proof.
  intros Hle.
  assert (∀ st e, _validate_booking_dates env sd ed = Valid st e →
                  _validate_booking_dates env' sd ed = Valid st e) as Hearlier.
  { intros st e H.
    destruct (validate_Valid_inv _ _ _ _ _ _ H)
      as (vs & ve & ds & de & -> & -> & Hds & Hde & -> & -> & Hlt & H1 & H2).
    destruct (valid_truthy _ _ _ _ _ _ H) as [Hs He].
    rewrite !timestamp_utc_if_naive in *.
    rewrite (validate_parsed fromisoformat env' _ _ vs ve ds de) by done.
    destruct (Z.leb_spec (timestamp de) (timestamp ds)); [lia|].
    destruct (Z.ltb_spec (timestamp ds) (clock env')); [lia|].
    destruct (Z.ltb_spec (timestamp de) (clock env')); [lia|].
    reflexivity. }
  split; [exact Hearlier|].
  intros msg H.
  destruct (_validate_booking_dates env sd ed) as [msg'|st e] eqn:E; [eauto|].
  rewrite (Hearlier _ _ eq_refl) in H. discriminate.
Qed.

End MoreValidation.

Lemma parse_datetime_fixed_point_witness :
  _parse_datetime iso_samples (Instant (aware (jan1 + day + hour)))
  = Some (aware (jan1 + day + hour)).
Proof.
  apply (parse_datetime_fixed_point iso_samples (Str "2030-01-02T01:00:00")).
  reflexivity.
Defined.

Lemma validate_booking_dates_stable_witness :
  _validate_booking_dates iso_samples env0
    (Some (Instant (aware (jan1 + day))))
    (Some (Instant (aware (jan1 + day + hour))))
  = Valid (aware (jan1 + day)) (aware (jan1 + day + hour)).
Proof.
  apply (validate_booking_dates_stable iso_samples env0 sample_start sample_end).
  reflexivity.
Defined.

Lemma validate_booking_dates_clock_witness :
  _validate_booking_dates iso_samples env0 sample_start sample_end
  = Valid (aware (jan1 + day)) (aware (jan1 + day + hour)).
Proof.
  apply (proj1 (validate_booking_dates_clock iso_samples env_6min env0
                  sample_start sample_end ltac:(vm_compute; discriminate))).
  reflexivity.
Defined.

(** ** Holds, expiry and availability *)

Lemma live_iff env b :
  live env b
  ↔ (String.eqb (status b) "confirmed"
     || (String.eqb (status b) "pending"
         && col_gt (created_at b) (_get_expired_threshold env))) = true.
Proof.
  unfold live. rewrite orb_true_iff, andb_true_iff, String.eqb_eq,
    String.eqb_eq, col_gt_true.
  rewrite wall_threshold. reflexivity.
Qed.

(** The availability filter in words: same room, live, and the stored
    window intersects the wall-clock readings of the requested one. *)
Lemma blocking_row_true env room st e b :
  blocking_row (_get_expired_threshold env) room st e b = true
  ↔ room_id b = room ∧ live env b
    ∧ ∃ bs be : stored_datetime,
        start_date b = Some bs ∧ end_date b = Some be
        ∧ timestamp bs < wall e ∧ wall st < timestamp be.
Proof.
  unfold blocking_row.
  rewrite !andb_true_iff, Z.eqb_eq, col_lt_true, col_gt_true, <- live_iff.
  split.
  - intros [[[Hr (bs & Hbs & H1)] (be & Hbe & H2)] Hl]. eauto 10.
  - intros (Hr & Hl & bs & be & Hbs & Hbe & H1 & H2). eauto 10.
Qed.

Section MoreLifecycle.

Variable fromisoformat : string → option datetime.

Local Abbreviation _validate_booking_dates :=
  (_validate_booking_dates fromisoformat).
Local Abbreviation create_booking := (create_booking fromisoformat).

(** X4. With all arguments present, dates that validate and an existing
    room, [create_booking] succeeds exactly when no live row of that room
    has a stored window intersecting the new one, the new window being read
    as the store reads it, by its wall-clock fields without their offset;
    windows are half open, so a row that ends when the new window starts,
    or starts when it ends, is no obstacle.  In the other case the answer
    is 'Room is not available for the selected time range.' *)
Theorem create_booking_succeeds_iff env s rid r name mail sd ed st e status' :
  rid ≠ 0 → name ≠ "" → mail ≠ "" →
  _validate_booking_dates env sd ed = Valid st e →
  rooms s !! rid = Some r →
  (fst (create_booking env s (Some rid) (Some name) (Some mail) sd ed status')
   = Success "Booking created successfully." (Some (next_id (bookings s)))
   ↔ ∀ k b (bs be : stored_datetime),
       bookings s !! k = Some b → room_id b = rid → live env b →
       start_date b = Some bs → end_date b = Some be →
       timestamp be ≤ wall st ∨ wall e ≤ timestamp bs)
  ∧ (fst (create_booking env s (Some rid) (Some name) (Some mail) sd ed status')
     ≠ Success "Booking created successfully." (Some (next_id (bookings s))) →
     fst (create_booking env s (Some rid) (Some name) (Some mail) sd ed status')
     = room_unavailable).
Proof.
  intros Hrid Hname Hmail Hval Hroom.
  rewrite (create_booking_valid _ env s rid r name mail sd ed st e) by done.
  cbv zeta.
  destruct (_check_room_available env s rid st e) eqn:Hav; simpl.
  - split; [|intros H; contradiction]. split; [|reflexivity]. intros _.
    intros k b bs be Hk Hr Hl Hbs Hbe.
    pose proof (proj1 (check_room_available_true _ _ _ _ _) Hav k b Hk) as Hnb.
    destruct (Z.le_gt_cases (timestamp be) (wall st)) as [?|H2]; [auto|].
    destruct (Z.le_gt_cases (wall e) (timestamp bs)) as [?|H1]; [auto|].
    assert (blocking_row (_get_expired_threshold env) rid st e b = true) as Hb.
    { apply blocking_row_true. split; [exact Hr|]. split; [exact Hl|].
      exists bs, be. repeat split; auto; lia. }
    congruence.
  - split; [|reflexivity]. split; [discriminate|]. intros Hfree.
    apply check_room_available_false in Hav as (k & b & Hk & Hb).
    apply blocking_row_true in Hb as (Hr & Hl & bs & be & Hbs & Hbe & H1 & H2).
    destruct (Hfree k b bs be Hk Hr Hl Hbs Hbe); lia.
Qed.

End MoreLifecycle.

(** X5. Expiry does not reverse by itself.  A row stored as 'pending' that
    the resolver reports as 'expired' is reported so at every later
    threshold, blocks no window there, and is refused by [confirm_booking]
    there. *)
Theorem expired_stays_expired env env' s id b :
  bookings s !! id = Some b →
  status b = "pending" →
  determine_booking_status env b = "expired" →
  clock env - timedelta_minutes (hold_minutes env)
  ≤ clock env' - timedelta_minutes (hold_minutes env') →
  determine_booking_status env' b = "expired"
  ∧ (∀ room st e, blocking_row (_get_expired_threshold env') room st e b = false)
  ∧ confirm_booking env' s id = (Error "Booking not found or not pending.", s).
Proof.
  intros Hid Hst Hexp Hthr.
  assert (∃ c : stored_datetime,
            created_at b = Some c
            ∧ timestamp c < clock env - timedelta_minutes (hold_minutes env))
    as (c & Hc & Hlt).
  { revert Hexp. unfold determine_booking_status, dt_lt. rewrite Hst. simpl.
    destruct (created_at b) as [c|]; [|discriminate].
    rewrite timestamp_utc_if_naive, timestamp_threshold.
    destruct (Z.ltb_spec (timestamp c)
                (clock env - timedelta_minutes (hold_minutes env)));
      [eauto|discriminate]. }
  destruct (expired_reports_and_never_blocks env' b c 0 (datetime_now env')
              (datetime_now env') Hst Hc ltac:(lia)) as [Hd _].
  split; [exact Hd|]. split.
  - intros room st e. apply reported_expired_never_blocks, Hd.
  - rewrite confirm_booking_eq, Hid, Hst, Hc, col_gt_threshold. simpl.
    destruct (Z.ltb_spec (clock env' - timedelta_minutes (hold_minutes env'))
                (timestamp c)); [lia|reflexivity].
Qed.

(** X6. With [BOOKING_HOLD_MINUTES] at zero or below there is no hold: a
    'pending' row created no later than the clock blocks no window and
    cannot be confirmed. *)
Theorem no_hold_without_minutes env s id b :
  hold_minutes env ≤ 0 →
  bookings s !! id = Some b →
  status b = "pending" →
  (∀ c, created_at b = Some c → timestamp c ≤ clock env) →
  (∀ room st e, blocking_row (_get_expired_threshold env) room st e b = false)
  ∧ confirm_booking env s id = (Error "Booking not found or not pending.", s).
Proof.
  intros Hhold Hid Hst Hc.
  assert (col_gt (created_at b) (_get_expired_threshold env) = false) as Hgt.
  { destruct (created_at b) as [c|] eqn:E; [|reflexivity].
    rewrite col_gt_threshold. apply Z.ltb_ge.
    specialize (Hc c eq_refl). unfold timedelta_minutes. lia. }
  split.
  - intros room st e. unfold blocking_row. rewrite Hst, Hgt. simpl.
    apply andb_false_r.
  - rewrite confirm_booking_eq, Hid, Hst, Hgt. reflexivity.
Qed.

Lemma create_booking_succeeds_iff_witness :
  fst (create_booking iso_samples env0
         (store_with {| room_id := 1; user_id := 1;
                        start_date := Some (mk_stored (jan1 + day - hour));
                        end_date := Some (mk_stored (jan1 + day));
                        status := "confirmed";
                        created_at := Some (mk_stored jan1) |})
         (Some 1) (Some "user2") (Some "user2@example.com")
         sample_start sample_end "pending")
  = Success "Booking created successfully." (Some 2).
Proof.
  apply (proj1 (create_booking_succeeds_iff iso_samples env0
                  (store_with {| room_id := 1; user_id := 1;
                                 start_date :=
                                   Some (mk_stored (jan1 + day - hour));
                                 end_date := Some (mk_stored (jan1 + day));
                                 status := "confirmed";
                                 created_at := Some (mk_stored jan1) |})
                  1 test_room "user2" "user2@example.com"
                  sample_start sample_end
                  (aware (jan1 + day)) (aware (jan1 + day + hour)) "pending"
                  ltac:(discriminate) ltac:(discriminate) ltac:(discriminate)
                  eq_refl eq_refl)).
  intros k b bs be Hk _ _ Hbs Hbe.
  unfold store_with in Hk. simpl in Hk.
  apply lookup_singleton_Some in Hk as [_ <-].
  injection Hbe as <-. left. vm_compute. discriminate.
Defined.

Lemma expired_stays_expired_witness :
  determine_booking_status env_6min (sample_booking "pending" (jan1 - minute))
  = "expired".
Proof.
  apply (expired_stays_expired
           {| clock := jan1 + 5 * minute; BOOKING_HOLD_MINUTES := None |}
           env_6min (store_with (sample_booking "pending" (jan1 - minute))) 1);
    try reflexivity.
  discriminate.
Defined.

Lemma no_hold_without_minutes_witness :
  confirm_booking {| clock := jan1; BOOKING_HOLD_MINUTES := Some 0 |}
    (store_with (sample_booking "pending" jan1)) 1
  = (Error "Booking not found or not pending.",
     store_with (sample_booking "pending" jan1)).
Proof.
  apply (no_hold_without_minutes
           {| clock := jan1; BOOKING_HOLD_MINUTES := Some 0 |}
           (store_with (sample_booking "pending" jan1)) 1
           (sample_booking "pending" jan1) ltac:(reflexivity) eq_refl eq_refl).
  intros c [= <-]. reflexivity.
Defined.

(** ** No double booking *)











Section Invariant.

Variable fromisoformat : string → option datetime.

Lemma create_booking_rows env s room name mail sd ed status' :
  bookings (snd (create_booking fromisoformat env s room name mail sd ed status'))
  = bookings s
  ∨ ∃ rid u st e,
      _check_room_available env s rid st e = true
      ∧ bookings (snd (create_booking fromisoformat env s room name mail sd ed
                         status'))
        = <[next_id (bookings s) :=
              {| room_id := rid; user_id := u;
                 start_date := Some (stored st); end_date := Some (stored e);
                 status := status';
                 created_at := created_at_default env |}]> (bookings s).
Proof.
  unfold create_booking.
  destruct room as [rid|]; [|auto].
  destruct name as [name|]; [|auto].
  destruct mail as [mail|]; [|auto].
  destruct (negb _); [auto|].
  destruct (_validate_booking_dates fromisoformat env sd ed) as [msg|st e];
    [auto|].
  destruct (rooms s !! rid); [|auto].
  destruct (retrieve_user_frame s name mail) as [_ Hb].
  destruct (retrieve_user s name mail) as [user s1]. simpl in Hb.
  rewrite (check_room_available_bookings env s1 s) by exact Hb.
  destruct (_check_room_available env s rid st e) eqn:Hav; simpl;
    [|left; exact Hb].
  right. exists rid, (uid user), st, e. split; [exact Hav|].
  rewrite Hb. reflexivity.
Qed.







End Invariant.




(** What the three calls of the witness do to the store. *)
Example overlapping_create_refused_adjacent_accepted :
  run iso_samples env0
    (CreateBooking (Some 1) (Some "testuser") (Some "test@example.com")
       sample_start sample_end "pending")
    (store_with (sample_booking "confirmed" jan1))
  = (room_unavailable, store_with (sample_booking "confirmed" jan1))
  ∧ fst (run iso_samples env0
           (CreateBooking (Some 1) (Some "user2")
              (Some "user2@example.com") next_start next_end "pending")
           (store_with (sample_booking "confirmed" jan1)))
    = Success "Booking created successfully." (Some 2)
  ∧ fst (run iso_samples env0
           (UpdateBooking 1 next_start next_end "confirmed")
           (store_with (sample_booking "confirmed" jan1)))
    = Success "Booking updated successfully." (Some 1).
Proof. repeat split; vm_compute; reflexivity. Qed.


(** ** What a call leaves alone *)

Section Frame.

Variable fromisoformat : string → option datetime.

(** A call writes at most one row of the bookings table, and a row it
    overwrites keeps its room, its user and its creation time. *)
Lemma run_bookings env op s :
  bookings (snd (run fromisoformat env op s)) = bookings s
  ∨ ∃ k b',
      bookings (snd (run fromisoformat env op s)) = <[k := b']> (bookings s)
      ∧ ∀ b, bookings s !! k = Some b →
             room_id b' = room_id b ∧ user_id b' = user_id b
             ∧ created_at b' = created_at b.
Proof.
  destruct op as [room name mail sd ed st|id sd ed st|id|id|id]; simpl.
  - destruct (create_booking_rows fromisoformat env s room name mail sd ed st)
      as [Heq|(rid & u & st' & e & _ & Heq)]; [left; exact Heq|].
    right. eexists _, _. split; [exact Heq|].
    intros b Hb. rewrite next_id_fresh in Hb. discriminate.
  - unfold update_booking.
    destruct (bookings s !! id) as [b|] eqn:Hid; [|auto].
    destruct (_validate_booking_dates fromisoformat env sd ed) as [msg|st' e];
      [auto|].
    destruct (_ && _); [auto|]. right. eexists _, _. split; [reflexivity|].
    intros b0 Hb0. rewrite Hid in Hb0. injection Hb0 as <-. auto.
  - rewrite confirm_booking_eq.
    destruct (bookings s !! id) as [b|] eqn:Hid; [|auto].
    destruct (_ && _); [|auto]. right. eexists _, _. split; [reflexivity|].
    intros b0 Hb0. rewrite Hid in Hb0. injection Hb0 as <-. auto.
  - unfold cancel_booking.
    destruct (bookings s !! id) as [b|] eqn:Hid; [|auto].
    destruct (match end_date b with Some _ => _ | None => _ end); [auto|].
    right. eexists _, _. split; [reflexivity|].
    intros b0 Hb0. rewrite Hid in Hb0. injection Hb0 as <-. auto.
  - rewrite release_booking_eq.
    destruct (bookings s !! id) as [b|] eqn:Hid; [|auto].
    destruct (String.eqb _ _); [|auto]. right. eexists _, _.
    split; [reflexivity|].
    intros b0 Hb0. rewrite Hid in Hb0. injection Hb0 as <-. auto.
Qed.

Lemma create_booking_users env s room name mail sd ed status' :
  users (snd (create_booking fromisoformat env s room name mail sd ed status'))
  = users s
  ∨ ∃ u, users (snd (create_booking fromisoformat env s room name mail sd ed
                       status'))
         = (users s ++ [u])%list
         ∧ mail = Some (email u) ∧ password u = ""
         ∧ ∀ u', u' ∈ users s → email u' ≠ email u ∧ uid u' ≠ uid u.
Proof.
  unfold create_booking.
  destruct room as [rid|]; [|auto].
  destruct name as [name|]; [|auto].
  destruct mail as [mail|]; [|auto].
  destruct (negb _); [auto|].
  destruct (_validate_booking_dates fromisoformat env sd ed) as [msg|st e];
    [auto|].
  destruct (rooms s !! rid); [|auto].
  assert (users (snd (retrieve_user s name mail)) = users s
          ∨ ∃ u, users (snd (retrieve_user s name mail)) = (users s ++ [u])%list
                 ∧ Some mail = Some (email u) ∧ password u = ""
                 ∧ ∀ u', u' ∈ users s → email u' ≠ email u ∧ uid u' ≠ uid u)
    as Hu.
  { unfold retrieve_user.
    destruct (find _ (users s)) as [u0|] eqn:E; [left; reflexivity|].
    right. eexists. split; [reflexivity|]. simpl. repeat split; auto.
    - apply list_elem_of_In in H.
      pose proof (find_none _ _ E u' H) as Hne. simpl in Hne.
      apply String.eqb_neq in Hne. exact Hne.
    - apply next_uid_fresh, H. }
  destruct (retrieve_user s name mail) as [user s1]. simpl in Hu.
  destruct (negb _); simpl; exact Hu.
Qed.

Lemma run_rooms env op s : rooms (snd (run fromisoformat env op s)) = rooms s.
Proof.
  destruct op as [room name mail sd ed st|id sd ed st|id|id|id]; simpl.
  - unfold create_booking.
    destruct room as [rid|]; [|reflexivity].
    destruct name as [name|]; [|reflexivity].
    destruct mail as [mail|]; [|reflexivity].
    destruct (negb _); [reflexivity|].
    destruct (_validate_booking_dates _ _ _ _); [reflexivity|].
    destruct (rooms s !! rid); [|reflexivity].
    destruct (retrieve_user_frame s name mail) as [Hr _].
    destruct (retrieve_user s name mail) as [user s1]. simpl in Hr.
    destruct (negb _); exact Hr.
  - unfold update_booking. destruct (bookings s !! id); [|reflexivity].
    destruct (_validate_booking_dates _ _ _ _); [reflexivity|].
    destruct (_ && _); reflexivity.
  - unfold confirm_booking. destruct (query_first _ _) as [[k b]|]; reflexivity.
  - unfold cancel_booking. destruct (bookings s !! id); [|reflexivity].
    destruct (match _ with Some _ => _ | None => _ end); reflexivity.
  - unfold release_booking. destruct (query_first _ _) as [[k b]|]; reflexivity.
Qed.

(** X9. No call deletes anything or touches the rooms: the rooms table is
    unchanged, every booking id in use stays in use, and the users table is
    unchanged except that [create_booking] may append one user, whose email
    and id no stored user had and whose password is empty. *)
Theorem run_frame env op s :
  rooms (snd (run fromisoformat env op s)) = rooms s
  ∧ (∀ k, is_Some (bookings s !! k) →
          is_Some (bookings (snd (run fromisoformat env op s)) !! k))
  ∧ (users (snd (run fromisoformat env op s)) = users s
     ∨ ∃ room name mail sd ed st u,
         op = CreateBooking room name mail sd ed st
         ∧ users (snd (run fromisoformat env op s)) = (users s ++ [u])%list
         ∧ password u = ""
         ∧ ∀ u', u' ∈ users s → email u' ≠ email u ∧ uid u' ≠ uid u).
Proof.
  split; [apply run_rooms|split].
  - intros k Hk.
    destruct (run_bookings env op s) as [->|(k0 & b' & -> & _)]; [exact Hk|].
    destruct (decide (k0 = k)) as [->|Hne].
    + rewrite lookup_insert_eq. eauto.
    + rewrite lookup_insert_ne by auto. exact Hk.
  - destruct op as [room name mail sd ed st|id sd ed st|id|id|id]; simpl.
    + destruct (create_booking_users env s room name mail sd ed st)
        as [H|(u & Hu & _ & Hp & Hfresh)]; [left; exact H|].
      right. exists room, name, mail, sd, ed, st, u. auto.
    + left. unfold update_booking. destruct (bookings s !! id); [|reflexivity].
      destruct (_validate_booking_dates _ _ _ _); [reflexivity|].
      destruct (_ && _); reflexivity.
    + left. unfold confirm_booking.
      destruct (query_first _ _) as [[k b]|]; reflexivity.
    + left. unfold cancel_booking. destruct (bookings s !! id); [|reflexivity].
      destruct (match _ with Some _ => _ | None => _ end); reflexivity.
    + left. unfold release_booking.
      destruct (query_first _ _) as [[k b]|]; reflexivity.
Qed.

(** X10. No call moves a booking to another room or user, and none renews
    a hold: a row that exists before and after a call has the same room,
    the same user and the same creation time. *)
Theorem run_keeps_room_user_created env op s k b b' :
  bookings s !! k = Some b →
  bookings (snd (run fromisoformat env op s)) !! k = Some b' →
  room_id b' = room_id b ∧ user_id b' = user_id b
  ∧ created_at b' = created_at b.
Proof.
  intros Hk Hk'.
  destruct (run_bookings env op s) as [Heq|(k0 & b0 & Heq & Hsame)];
    rewrite Heq in Hk'.
  - rewrite Hk in Hk'. injection Hk' as <-. auto.
  - destruct (decide (k0 = k)) as [->|Hne].
    + rewrite lookup_insert_eq in Hk'. injection Hk' as <-. auto.
    + rewrite lookup_insert_ne in Hk' by auto.
      rewrite Hk in Hk'. injection Hk' as <-. auto.
Qed.

(** X11. An error answer means nothing was written to the rooms or the
    bookings, and, for every call but [create_booking], that the store is
    exactly as it was. *)
Theorem run_error_leaves_store env op s msg :
  fst (run fromisoformat env op s) = Error msg →
  rooms (snd (run fromisoformat env op s)) = rooms s
  ∧ bookings (snd (run fromisoformat env op s)) = bookings s
  ∧ ((∀ room name mail sd ed st, op ≠ CreateBooking room name mail sd ed st) →
     snd (run fromisoformat env op s) = s).
Proof.
  destruct op as [room name mail sd ed st|id sd ed st|id|id|id]; simpl.
  - intros Herr. split; [|split].
    + apply (run_rooms env (CreateBooking room name mail sd ed st) s).
    + revert Herr. unfold create_booking.
      destruct room as [rid|]; [|reflexivity].
      destruct name as [name|]; [|reflexivity].
      destruct mail as [mail|]; [|reflexivity].
      destruct (negb _); [reflexivity|].
      destruct (_validate_booking_dates _ _ _ _); [reflexivity|].
      destruct (rooms s !! rid); [|reflexivity].
      destruct (retrieve_user_frame s name mail) as [_ Hb].
      destruct (retrieve_user s name mail) as [user s1]. simpl in Hb.
      destruct (negb _); [intros _; exact Hb|discriminate].
    + intros H. destruct (H room name mail sd ed st eq_refl).
  - unfold update_booking. destruct (bookings s !! id); [|auto].
    destruct (_validate_booking_dates _ _ _ _); [auto|].
    destruct (_ && _); [auto|discriminate].
  - unfold confirm_booking.
    destruct (query_first _ _) as [[k b]|]; [discriminate|auto].
  - unfold cancel_booking. destruct (bookings s !! id); [|auto].
    destruct (match _ with Some _ => _ | None => _ end); [auto|discriminate].
  - unfold release_booking.
    destruct (query_first _ _) as [[k b]|]; [discriminate|auto].
Qed.

(** A row that is not stored as 'pending' stays so under every call but an
    update of that row. *)
Lemma run_keeps_not_pending env op s id b :
  is_update_of id op = false →
  bookings s !! id = Some b → status b ≠ "pending" →
  ∃ b', bookings (snd (run fromisoformat env op s)) !! id = Some b'
        ∧ status b' ≠ "pending".
Proof.
  intros Hop Hb Hst.
  destruct op as [room name mail sd ed st|k sd ed st|k|k|k]; simpl in *.
  - destruct (create_booking_rows fromisoformat env s room name mail sd ed st)
      as [Heq|(rid & u & st' & e & _ & Heq)]; rewrite Heq; [eauto|].
    rewrite lookup_insert_ne; [eauto|].
    intros E. rewrite <- E, next_id_fresh in Hb. discriminate.
  - apply Z.eqb_neq in Hop. unfold update_booking.
    destruct (bookings s !! k); [|eauto].
    destruct (_validate_booking_dates _ _ _ _); [eauto|].
    destruct (_ && _); [eauto|]. simpl.
    rewrite lookup_insert_ne by auto. eauto.
  - rewrite confirm_booking_eq.
    destruct (bookings s !! k) as [b0|]; [|eauto].
    destruct (_ && _); [|eauto]. simpl.
    destruct (decide (k = id)) as [->|Hne].
    + rewrite lookup_insert_eq. eexists. split; [reflexivity|discriminate].
    + rewrite lookup_insert_ne by auto. eauto.
  - unfold cancel_booking.
    destruct (bookings s !! k) as [b0|]; [|eauto].
    destruct (match _ with Some _ => _ | None => _ end); [eauto|]. simpl.
    destruct (decide (k = id)) as [->|Hne].
    + rewrite lookup_insert_eq. eexists. split; [reflexivity|discriminate].
    + rewrite lookup_insert_ne by auto. eauto.
  - rewrite release_booking_eq.
    destruct (bookings s !! k) as [b0|]; [|eauto].
    destruct (String.eqb _ _); [|eauto]. simpl.
    destruct (decide (k = id)) as [->|Hne].
    + rewrite lookup_insert_eq. eexists. split; [reflexivity|discriminate].
    + rewrite lookup_insert_ne by auto. eauto.
Qed.

Lemma run_all_keeps_not_pending calls s id b :
  Forall (λ call : Env * Op, is_update_of id call.2 = false) calls →
  bookings s !! id = Some b → status b ≠ "pending" →
  ∃ b', bookings (run_all fromisoformat calls s) !! id = Some b'
        ∧ status b' ≠ "pending".
Proof.
  revert s b. induction calls as [|[env op] calls IH]; intros s b Hall Hb Hst.
  - eauto.
  - apply Forall_cons in Hall as [Hop Hall]. simpl in Hop.
    destruct (run_keeps_not_pending env op s id b Hop Hb Hst)
      as (b1 & Hb1 & Hst1).
    apply (IH _ b1 Hall Hb1 Hst1).
Qed.

(** X12. A booking is settled once, unless it is updated.  After
    [confirm_booking], [cancel_booking] or [release_booking] has succeeded
    on an id, and after any further calls of the core among which there is
    no [update_booking] of that id, [confirm_booking] and [release_booking]
    on that id, at whatever time, answer 'Booking not found or not
    pending.' and change nothing.  An [update_booking] of the id can store
    'pending' again and so reopen it. *)
Theorem settled_rejects_confirm_and_release env env' op id s m o calls :
  op = ConfirmBooking id ∨ op = CancelBooking id ∨ op = ReleaseBooking id →
  fst (run fromisoformat env op s) = Success m o →
  Forall (λ call : Env * Op, is_update_of id call.2 = false) calls →
  confirm_booking env'
    (run_all fromisoformat calls (snd (run fromisoformat env op s))) id
  = (Error "Booking not found or not pending.",
     run_all fromisoformat calls (snd (run fromisoformat env op s)))
  ∧ release_booking
      (run_all fromisoformat calls (snd (run fromisoformat env op s))) id
    = (Error "Booking not found or not pending.",
       run_all fromisoformat calls (snd (run fromisoformat env op s))).
Proof.
  intros Hop Hok Hcalls.
  assert (∃ b, bookings (snd (run fromisoformat env op s)) !! id = Some b
               ∧ status b ≠ "pending") as (b & Hb & Hst).
  { destruct Hop as [->|[->| ->]]; simpl in *.
    - rewrite confirm_booking_eq in *.
      destruct (bookings s !! id) as [b|]; [|discriminate].
      destruct (_ && _); [|discriminate]. simpl.
      eexists. rewrite lookup_insert_eq. split; [reflexivity|discriminate].
    - unfold cancel_booking in *.
      destruct (bookings s !! id) as [b|]; [|discriminate].
      destruct (match _ with Some _ => _ | None => _ end); [discriminate|].
      simpl. eexists. rewrite lookup_insert_eq.
      split; [reflexivity|discriminate].
    - rewrite release_booking_eq in *.
      destruct (bookings s !! id) as [b|]; [|discriminate].
      destruct (String.eqb _ _); [|discriminate]. simpl.
      eexists. rewrite lookup_insert_eq. split; [reflexivity|discriminate]. }
  destruct (run_all_keeps_not_pending calls _ id b Hcalls Hb Hst)
    as (b' & Hb' & Hst').
  apply String.eqb_neq in Hst'.
  rewrite confirm_booking_eq, release_booking_eq, Hb', Hst'. auto.
Qed.

End Frame.

Lemma run_keeps_room_user_created_witness :
  created_at <$> bookings (snd (run iso_samples env_6min
                                  (UpdateBooking 1 sample_start sample_end
                                     "pending")
                                  (store_with (sample_booking "pending" jan1))))
                 !! 1
  = Some (Some (mk_stored jan1)).
Proof.
  destruct (bookings (snd (run iso_samples env_6min
                             (UpdateBooking 1 sample_start sample_end "pending")
                             (store_with (sample_booking "pending" jan1))))
              !! 1) as [b'|] eqn:E; [|discriminate E].
  destruct (run_keeps_room_user_created iso_samples env_6min
              (UpdateBooking 1 sample_start sample_end "pending")
              (store_with (sample_booking "pending" jan1)) 1
              (sample_booking "pending" jan1) b' eq_refl E) as (_ & _ & H).
  simpl. rewrite H. reflexivity.
Defined.

Lemma run_error_leaves_store_witness :
  snd (run iso_samples env_6min (ConfirmBooking 1)
         (store_with (sample_booking "pending" jan1)))
  = store_with (sample_booking "pending" jan1).
Proof.
  apply (run_error_leaves_store iso_samples env_6min (ConfirmBooking 1)
           (store_with (sample_booking "pending" jan1))
           "Booking not found or not pending." eq_refl).
  discriminate.
Defined.

(** Confirm, then cancel and let somebody else try the same window: the
    booking can be neither released nor confirmed afterwards. *)
Lemma settled_rejects_confirm_and_release_witness :
  fst (release_booking
         (run_all iso_samples
            [(env_1min, CancelBooking 1);
             (env_6min, CreateBooking (Some 1) (Some "user2")
                          (Some "user2@example.com") sample_start sample_end
                          "pending")]
            (snd (run iso_samples env_1min (ConfirmBooking 1)
                    (store_with (sample_booking "pending" jan1))))) 1)
  = Error "Booking not found or not pending."
  ∧ fst (confirm_booking env_6min
           (run_all iso_samples
              [(env_1min, CancelBooking 1);
               (env_6min, CreateBooking (Some 1) (Some "user2")
                            (Some "user2@example.com") sample_start sample_end
                            "pending")]
              (snd (run iso_samples env_1min (ConfirmBooking 1)
                      (store_with (sample_booking "pending" jan1))))) 1)
    = Error "Booking not found or not pending.".
Proof.
  destruct (settled_rejects_confirm_and_release iso_samples env_1min env_6min
              (ConfirmBooking 1) 1 (store_with (sample_booking "pending" jan1))
              "Booking confirmed successfully." None
              [(env_1min, CancelBooking 1);
               (env_6min, CreateBooking (Some 1) (Some "user2")
                            (Some "user2@example.com") sample_start sample_end
                            "pending")]
              (or_introl eq_refl) eq_refl
              ltac:(repeat constructor)) as [Hc Hr].
  rewrite Hc, Hr. split; reflexivity.
Defined.

(** The exception: an update of the settled booking that stores 'pending'
    makes it releasable again. *)
Example update_reopens_settled :
  fst (release_booking
         (run_all iso_samples
            [(env_1min, UpdateBooking 1 next_start next_end "pending")]
            (snd (run iso_samples env_1min (CancelBooking 1)
                    (store_with (sample_booking "pending" jan1))))) 1)
  = Success "Booking released successfully." None.
Proof. vm_compute. reflexivity. Qed.

(** ** Users *)

Lemma find_snoc {A} (p : A → bool) l x :
  find p (l ++ [x]) =
    match find p l with
    | Some y => Some y
    | None => if p x then Some x else None
    end.
Proof.
  induction l as [|a l IH]; simpl; [reflexivity|].
  destruct (p a); [reflexivity|exact IH].
Qed.

Lemma find_by_uid us u :
  NoDup (uid <$> us) → u ∈ us → find (λ u', uid u' =? uid u) us = Some u.
Proof.
  induction us as [|a us IH]; intros Hnd Hin; [inversion Hin|].
  rewrite fmap_cons in Hnd. apply NoDup_cons in Hnd as [Hna Hnd]. simpl.
  apply elem_of_cons in Hin as [->|Hin].
  - rewrite Z.eqb_refl. reflexivity.
  - destruct (Z.eqb_spec (uid a) (uid u)) as [Heq|_]; [|auto].
    destruct Hna. rewrite Heq. apply list_elem_of_fmap. eauto.
Qed.

Lemma retrieve_user_in s name mail :
  fst (retrieve_user s name mail) ∈ users (snd (retrieve_user s name mail))
  ∧ email (fst (retrieve_user s name mail)) = mail.
Proof.
  unfold retrieve_user.
  destruct (find _ (users s)) as [u|] eqn:E; simpl.
  - apply find_some in E as [Hin He]. apply String.eqb_eq in He.
    split; [apply list_elem_of_In, Hin|exact He].
  - split; [|reflexivity]. apply elem_of_app. right.
    apply list_elem_of_singleton. reflexivity.
Qed.

Lemma retrieve_user_NoDup s name mail :
  NoDup (email <$> users s) → NoDup (uid <$> users s) →
  NoDup (email <$> users (snd (retrieve_user s name mail)))
  ∧ NoDup (uid <$> users (snd (retrieve_user s name mail))).
Proof.
  intros He Hu. unfold retrieve_user.
  destruct (find _ (users s)) as [u|] eqn:E; simpl; [auto|].
  rewrite !fmap_app. simpl. split.
  - apply NoDup_app. split; [exact He|]. split; [|apply NoDup_singleton].
    intros m Hm Hm'. apply list_elem_of_singleton in Hm' as ->.
    apply list_elem_of_fmap in Hm as (u' & Heq & Hin).
    apply list_elem_of_In in Hin.
    pose proof (find_none _ _ E u' Hin) as Hne. simpl in Hne.
    apply String.eqb_neq in Hne. congruence.
  - apply NoDup_app. split; [exact Hu|]. split; [|apply NoDup_singleton].
    intros i Hi Hi'. apply list_elem_of_singleton in Hi' as ->.
    apply list_elem_of_fmap in Hi as (u' & Heq & Hin).
    apply (next_uid_fresh _ _ Hin). auto.
Qed.

(** X13. [retrieve_user] is idempotent in the email: asked again for the
    same email, under whatever name, it returns the user it returned the
    first time and leaves the store as the first call left it. *)
Theorem retrieve_user_again s name name' mail :
  retrieve_user (snd (retrieve_user s name mail)) name' mail
  = (fst (retrieve_user s name mail), snd (retrieve_user s name mail)).
Proof.
  unfold retrieve_user at 2 3 4.
  destruct (find _ (users s)) as [u|] eqn:E; simpl.
  - unfold retrieve_user. rewrite E. reflexivity.
  - unfold retrieve_user. simpl. rewrite find_snoc, E. simpl.
    rewrite String.eqb_refl. reflexivity.
Qed.

(** X14. [retrieve_user] keeps the users table well formed: if no two
    stored users share an email and no two share an id, the same is true
    afterwards. *)
Theorem retrieve_user_keeps_unique s name mail :
  NoDup (email <$> users s) → NoDup (uid <$> users s) →
  NoDup (email <$> users (snd (retrieve_user s name mail)))
  ∧ NoDup (uid <$> users (snd (retrieve_user s name mail))).
Proof. apply retrieve_user_NoDup. Qed.

Lemma retrieve_user_keeps_unique_witness :
  NoDup (email <$> users (snd (retrieve_user
                                 (store_with (sample_booking "pending" jan1))
                                 "user2" "user2@example.com")))
  ∧ NoDup (uid <$> users (snd (retrieve_user
                                 (store_with (sample_booking "pending" jan1))
                                 "user2" "user2@example.com"))).
Proof.
  apply (retrieve_user_keeps_unique
           (store_with (sample_booking "pending" jan1))
           "user2" "user2@example.com");
    apply NoDup_singleton.
Defined.

(** ** Reading a booking back *)

Section ReadBack.

Variable fromisoformat : string → option datetime.
Variable isoformat : datetime → string.

Lemma create_booking_Success env s room name mail sd ed status' m o :
  fst (create_booking fromisoformat env s room name mail sd ed status')
  = Success m o →
  ∃ rid nm ml r st e,
    room = Some rid ∧ name = Some nm ∧ mail = Some ml
    ∧ rooms s !! rid = Some r
    ∧ _validate_booking_dates fromisoformat env sd ed = Valid st e
    ∧ o = Some (next_id (bookings s))
    ∧ snd (create_booking fromisoformat env s room name mail sd ed status')
      = set_bookings (snd (retrieve_user s nm ml))
          (<[next_id (bookings s) :=
               {| room_id := rid;
                  user_id := uid (fst (retrieve_user s nm ml));
                  start_date := Some (stored st);
                  end_date := Some (stored e);
                  status := status';
                  created_at := created_at_default env |}]> (bookings s)).
Proof.
  unfold create_booking.
  destruct room as [rid|]; [|discriminate].
  destruct name as [nm|]; [|discriminate].
  destruct mail as [ml|]; [|discriminate].
  destruct (negb _); [discriminate|].
  destruct (_validate_booking_dates fromisoformat env sd ed) as [msg|st e];
    [discriminate|].
  destruct (rooms s !! rid) as [r|] eqn:Hr; [|discriminate].
  destruct (retrieve_user_frame s nm ml) as [_ Hb].
  destruct (retrieve_user s nm ml) as [user s1] eqn:Eru. simpl in Hb.
  destruct (negb _); [discriminate|]. simpl. intros [= <- <-].
  exists rid, nm, ml, r, st, e. rewrite Hb, Eru.
  repeat split; try reflexivity. exact Hr.
Qed.

(** X15. A booking can be read back after it was created.  After a
    successful [create_booking] with the default status, in a store where
    user ids are unique, [retrieve_booking] of the returned id, at any time
    before the hold runs out, finds the booking with status 'pending', the
    room asked for and its stored name, and the email given.  The start and
    end it reports are the validated ones as the store returns them: their
    wall-clock fields, naive, printed in ISO format, so without the UTC
    offset the request carried. *)
Theorem retrieve_after_create env env' s room name mail sd ed id :
  NoDup (uid <$> users s) → NoDup (email <$> users s) →
  fst (create_booking fromisoformat env s room name mail sd ed "pending")
  = Success "Booking created successfully." (Some id) →
  clock env' - timedelta_minutes (hold_minutes env') ≤ clock env →
  ∃ info rid r st e,
    retrieve_booking isoformat env'
      (snd (create_booking fromisoformat env s room name mail sd ed "pending"))
      id = Some info
    ∧ info_id info = id ∧ info_status info = "pending"
    ∧ room = Some rid ∧ info_room_id info = rid
    ∧ rooms s !! rid = Some r ∧ info_room_name info = room_name r
    ∧ mail = Some (info_user_email info)
    ∧ _validate_booking_dates fromisoformat env sd ed = Valid st e
    ∧ info_start_date info = Some (isoformat (stored st))
    ∧ info_end_date info = Some (isoformat (stored e)).
Proof.
  intros Hnd Hnde Hok Hhold.
  destruct (create_booking_Success _ _ _ _ _ _ _ _ _ _ Hok)
    as (rid & nm & ml & r & st & e & -> & -> & -> & Hr & Hval & [= ->] & ->).
  destruct (retrieve_user_frame s nm ml) as [Hrooms _].
  destruct (retrieve_user_in s nm ml) as [Hin Hmail].
  destruct (retrieve_user_NoDup s nm ml Hnde Hnd) as [_ Hnd1].
  unfold retrieve_booking. simpl. rewrite lookup_insert_eq. simpl.
  rewrite (find_by_uid _ _ Hnd1 Hin), Hrooms, Hr.
  eexists _, rid, r, st, e. split; [reflexivity|]. simpl.
  repeat split; auto; [|congruence].
  unfold determine_booking_status, dt_lt. simpl.
  rewrite timestamp_utc_if_naive, timestamp_loaded, timestamp_threshold.
  simpl.
  destruct (Z.ltb_spec (clock env)
              (clock env' - timedelta_minutes (hold_minutes env')));
    [lia|reflexivity].
Qed.

(** X16. A confirmed booking is never reported as expired: after a
    successful [confirm_booking], [retrieve_booking] of that id reports
    'confirmed' at every later time, and finds the booking whenever it was
    found before. *)
Theorem confirmed_read_back env env' s id :
  fst (confirm_booking env s id) = Success "Booking confirmed successfully." None →
  (retrieve_booking isoformat env s id ≠ None →
   retrieve_booking isoformat env' (snd (confirm_booking env s id)) id ≠ None)
  ∧ ∀ info,
      retrieve_booking isoformat env' (snd (confirm_booking env s id)) id
      = Some info →
      info_status info = "confirmed".
Proof.
  rewrite confirm_booking_eq. unfold retrieve_booking.
  destruct (bookings s !! id) as [b|] eqn:Hid; [|discriminate].
  destruct (_ && _); [|discriminate]. simpl. intros _.
  rewrite lookup_insert_eq. simpl.
  destruct (find _ (users s)) as [u|]; [|split; [auto|discriminate]].
  destruct (rooms s !! room_id b) as [r|]; [|split; [auto|discriminate]].
  split; [discriminate|]. intros info [= <-]. reflexivity.
Qed.

End ReadBack.

Lemma retrieve_after_create_witness :
  ∃ info,
    retrieve_booking sample_isoformat env_1min
      (snd (create_booking iso_samples env0 fresh_store (Some 1)
              (Some "Test User") (Some "test@example.com")
              sample_start sample_end "pending")) 1
    = Some info
    ∧ info_status info = "pending"
    ∧ info_start_date info = Some "2030-01-02T00:00:00"
    ∧ info_end_date info = Some "2030-01-02T01:00:00".
Proof.
  destruct (retrieve_after_create iso_samples sample_isoformat env0 env_1min
              fresh_store (Some 1) (Some "Test User")
              (Some "test@example.com") sample_start sample_end 1
              (NoDup_nil_2) (NoDup_nil_2) eq_refl ltac:(discriminate))
    as (info & rid & r & st & e & H & _ & Hst & _ & _ & _ & _ & _ & Hv & Hs
        & He).
  injection Hv as <- <-.
  exists info. auto.
Defined.

Lemma confirmed_read_back_witness :
  info_status <$>
    retrieve_booking sample_isoformat env_6min
      (snd (confirm_booking env_1min
              (store_with (sample_booking "pending" jan1)) 1)) 1
  = Some "confirmed".
Proof.
  destruct (retrieve_booking sample_isoformat env_6min
              (snd (confirm_booking env_1min
                      (store_with (sample_booking "pending" jan1)) 1)) 1)
    as [info|] eqn:E; [|discriminate E].
  simpl. f_equal.
  apply (proj2 (confirmed_read_back sample_isoformat env_1min env_6min
                  (store_with (sample_booking "pending" jan1)) 1 eq_refl)
           info E).
Defined.

(** ** The room seed migration *)

Section Seed.

Variable Price : Type.

Local Abbreviation room_json := (seed_rooms.room_json Price).
Local Abbreviation room_row := (seed_rooms.room_row Price).
Local Abbreviation upgrade := (seed_rooms.upgrade Price).
Local Abbreviation downgrade := (seed_rooms.downgrade Price).
Local Abbreviation json_id := (seed_rooms.json_id Price).

Implicit Types (data : list room_json) (t : gmap Z room_row).

Lemma upgrade_cons env room data t :
  upgrade env (room :: data) t
  = upgrade env data
      (match t !! json_id room with
       | Some _ => t
       | None =>
           <[json_id room :=
               {| seed_rooms.row_name := seed_rooms.json_name Price room;
                  seed_rooms.row_description :=
                    seed_rooms.json_description Price room;
                  seed_rooms.row_price := seed_rooms.json_price Price room;
                  seed_rooms.row_created_at := datetime_now env;
                  seed_rooms.row_updated_at := datetime_now env |}]> t
       end).
Proof. reflexivity. Qed.

Lemma upgrade_keeps env data t k r :
  t !! k = Some r → upgrade env data t !! k = Some r.
Proof.
  revert t. induction data as [|room data IH]; intros t Hk; [exact Hk|].
  rewrite upgrade_cons. apply IH.
  destruct (t !! json_id room) eqn:E; [exact Hk|].
  rewrite lookup_insert_ne; [exact Hk|]. intros Heq. congruence.
Qed.

Lemma upgrade_other env data t k :
  k ∉ json_id <$> data → upgrade env data t !! k = t !! k.
Proof.
  revert t. induction data as [|room data IH]; intros t Hk; [reflexivity|].
  rewrite fmap_cons in Hk. apply not_elem_of_cons in Hk as [Hne Hk].
  rewrite upgrade_cons, IH by exact Hk.
  destruct (t !! json_id room); [reflexivity|].
  rewrite lookup_insert_ne by auto. reflexivity.
Qed.

Lemma upgrade_listed env data t k :
  k ∈ json_id <$> data → is_Some (upgrade env data t !! k).
Proof.
  revert t. induction data as [|room data IH]; intros t Hk; [inversion Hk|].
  rewrite upgrade_cons. rewrite fmap_cons in Hk.
  apply elem_of_cons in Hk as [->|Hk]; [|apply IH, Hk].
  destruct (t !! json_id room) as [r|] eqn:E.
  - rewrite (upgrade_keeps _ _ _ _ _ E). eauto.
  - erewrite upgrade_keeps; [eauto|]. apply lookup_insert_eq.
Qed.

Lemma upgrade_nothing_new env data t :
  (∀ k, k ∈ json_id <$> data → is_Some (t !! k)) → upgrade env data t = t.
Proof.
  induction data as [|room data IH]; intros Hall; [reflexivity|].
  rewrite upgrade_cons.
  destruct (Hall (json_id room)) as [r Hr]; [rewrite fmap_cons; left|].
  rewrite Hr. apply IH. intros k Hk. apply Hall. rewrite fmap_cons. by right.
Qed.

(** X17. The upgrade never overwrites and never skips: a room row that is
    already in the table is left exactly as it is, whatever the JSON file
    says about its id; every id the file lists is in the table afterwards;
    ids the file does not list are untouched; and an id that was missing
    gets the fields of the first entry of the file that carries it, stamped
    with the time of the migration. *)
Theorem upgrade_spec env data t k :
  (∀ r, t !! k = Some r → upgrade env data t !! k = Some r)
  ∧ (k ∈ json_id <$> data → is_Some (upgrade env data t !! k))
  ∧ (k ∉ json_id <$> data → upgrade env data t !! k = t !! k)
  ∧ (∀ room, t !! k = None →
             find (λ room, json_id room =? k) data = Some room →
             upgrade env data t !! k
             = Some {| seed_rooms.row_name := seed_rooms.json_name Price room;
                       seed_rooms.row_description :=
                         seed_rooms.json_description Price room;
                       seed_rooms.row_price := seed_rooms.json_price Price room;
                       seed_rooms.row_created_at := datetime_now env;
                       seed_rooms.row_updated_at := datetime_now env |}).
Proof.
  split; [apply upgrade_keeps|]. split; [apply upgrade_listed|].
  split; [apply upgrade_other|].
  revert t. induction data as [|room0 data IH]; intros t room Hk Hfind;
    [discriminate|].
  rewrite upgrade_cons. simpl in Hfind.
  destruct (Z.eqb_spec (json_id room0) k) as [Heq|Hne].
  - injection Hfind as <-. rewrite Heq, Hk.
    apply upgrade_keeps, lookup_insert_eq.
  - apply IH; [|exact Hfind].
    destruct (t !! json_id room0); [exact Hk|].
    rewrite lookup_insert_ne by auto. exact Hk.
Qed.

(** X18. The upgrade is idempotent: run again on its own result, at
    whatever later time, it changes nothing. *)
Theorem upgrade_idempotent env env' data t :
  upgrade env' data (upgrade env data t) = upgrade env data t.
Proof. apply upgrade_nothing_new. intros k Hk. apply upgrade_listed, Hk. Qed.

Lemma downgrade_lookup data t k :
  downgrade data t !! k
  = if decide (k ∈ json_id <$> data) then None else t !! k.
Proof.
  unfold seed_rooms.downgrade.
  destruct (json_id <$> data) as [|i ids] eqn:E.
  - destruct (decide (k ∈ [])) as [H|_]; [inversion H|reflexivity].
  - destruct (decide (k ∈ i :: ids)) as [Hin|Hnin].
    + apply map_lookup_filter_None. right. intros x _ Hp. exact (Hp Hin).
    + destruct (t !! k) as [r|] eqn:Hk.
      * apply map_lookup_filter_Some. split; [exact Hk|exact Hnin].
      * apply map_lookup_filter_None. left. exact Hk.
Qed.

(** X19. The downgrade removes every room whose id the file lists, seeded
    or not, and nothing else; so downgrading after an upgrade gives what
    downgrading alone would have given, and restores the table exactly
    when it held none of the listed ids before the upgrade. *)
Theorem downgrade_after_upgrade env data t :
  (∀ k, downgrade data t !! k
        = if decide (k ∈ json_id <$> data) then None else t !! k)
  ∧ downgrade data (upgrade env data t) = downgrade data t
  ∧ ((∀ k, k ∈ json_id <$> data → t !! k = None) →
     downgrade data (upgrade env data t) = t).
Proof.
  split; [apply downgrade_lookup|].
  assert (downgrade data (upgrade env data t) = downgrade data t) as Heq.
  { apply map_eq. intros k. rewrite !downgrade_lookup.
    destruct (decide (k ∈ json_id <$> data)); [reflexivity|].
    apply upgrade_other. assumption. }
  split; [exact Heq|].
  intros Hnone. rewrite Heq. apply map_eq. intros k.
  rewrite downgrade_lookup.
  destruct (decide (k ∈ json_id <$> data)) as [Hin|]; [|reflexivity].
  symmetry. apply Hnone, Hin.
Qed.

End Seed.

Lemma downgrade_after_upgrade_witness :
  seed_rooms.downgrade Z rooms_json
    (seed_rooms.upgrade Z env0 rooms_json
       {[ 7 := seed_rooms.mk_room_row Z "Attic" "Old attic" 20
                 (aware jan1) (aware jan1) ]})
  = {[ 7 := seed_rooms.mk_room_row Z "Attic" "Old attic" 20
              (aware jan1) (aware jan1) ]}.
Proof.
  apply (proj2 (proj2 (downgrade_after_upgrade Z env0 rooms_json _))).
  intros k Hk. apply lookup_singleton_None.
  intros <-. vm_compute in Hk.
  repeat (apply elem_of_cons in Hk as [Hk|Hk]; [discriminate Hk|]).
  inversion Hk.
Defined.

(** ** The availability route *)

Section RouteProperties.

Variable fromisoformat : string → option datetime.
Variable RoomDict : Type.
Variable get_available_rooms_by_date_range :
  datetime → datetime → list RoomDict.

Local Abbreviation availability :=
  (app.availability fromisoformat RoomDict get_available_rooms_by_date_range).
Local Abbreviation AvailabilityRooms := (app.AvailabilityRooms RoomDict).
Local Abbreviation AvailabilityError := (app.AvailabilityError RoomDict).

(** X20. The availability route answers with rooms exactly when both query
    parameters are present and non-empty, both parse, and start lies
    strictly before end once naive values are read as UTC; the query is
    then made for those two datetimes.  Every other request gets status
    400.  The clock plays no part: a window in the past is served. *)
Theorem availability_answers a b :
  (∀ rooms, availability a b = AvailabilityRooms rooms →
     ∃ sa sb ds de,
       a = Some sa ∧ b = Some sb ∧ sa ≠ "" ∧ sb ≠ ""
       ∧ fromisoformat sa = Some ds ∧ fromisoformat sb = Some de
       ∧ timestamp ds < timestamp de
       ∧ rooms = get_available_rooms_by_date_range
                   (utc_if_naive ds) (utc_if_naive de))
  ∧ (∀ sa sb ds de,
       sa ≠ "" → sb ≠ "" →
       fromisoformat sa = Some ds → fromisoformat sb = Some de →
       timestamp ds < timestamp de →
       availability (Some sa) (Some sb)
       = AvailabilityRooms (get_available_rooms_by_date_range
                              (utc_if_naive ds) (utc_if_naive de)))
  ∧ (∀ msg code, availability a b = AvailabilityError msg code → code = 400).
Proof.
  split; [|split].
  - intros rooms. unfold app.availability.
    destruct a as [sa|]; [|discriminate].
    destruct b as [sb|]; [|simpl; rewrite orb_true_r; discriminate].
    simpl. destruct (String.eqb_spec sa "") as [|Ha]; [simpl; discriminate|].
    destruct (String.eqb_spec sb "") as [|Hb]; [simpl; discriminate|]. simpl.
    destruct (fromisoformat sa) as [ds|] eqn:Hds; [|discriminate].
    destruct (fromisoformat sb) as [de|] eqn:Hde; [|discriminate]. simpl.
    unfold dt_ge. rewrite !timestamp_utc_if_naive.
    destruct (Z.leb_spec (timestamp de) (timestamp ds)); [discriminate|].
    intros [= <-]. exists sa, sb, ds, de. auto 10.
  - intros sa sb ds de Ha Hb Hds Hde Hlt. unfold app.availability. simpl.
    apply String.eqb_neq in Ha, Hb. rewrite Ha, Hb, Hds, Hde. simpl.
    unfold dt_ge. rewrite !timestamp_utc_if_naive.
    destruct (Z.leb_spec (timestamp de) (timestamp ds)); [lia|reflexivity].
  - intros msg code. unfold app.availability.
    destruct (_ || _); [intros [= _ <-]; reflexivity|].
    destruct (_ ≫= _); [|intros [= _ <-]; reflexivity].
    destruct (_ ≫= _); [|intros [= _ <-]; reflexivity].
    destruct (dt_ge _ _); [intros [= _ <-]; reflexivity|discriminate].
Qed.

(** X21. Whatever can be booked can be asked about: two strings that
    [_validate_booking_dates] accepts are accepted by the availability
    route, which queries for the very datetimes validation returned. *)
Theorem availability_accepts_bookable env sa sb st e :
  _validate_booking_dates fromisoformat env (Some (Str sa)) (Some (Str sb))
  = Valid st e →
  availability (Some sa) (Some sb)
  = AvailabilityRooms (get_available_rooms_by_date_range st e).
Proof.
  intros Hval.
  destruct (valid_truthy _ _ _ _ _ _ Hval) as [Ha Hb].
  destruct (validate_Valid_inv _ _ _ _ _ _ Hval)
    as (vs & ve & ds & de & [= <-] & [= <-] & Hds & Hde & -> & -> & Hlt & _).
  simpl in Ha, Hb, Hds, Hde. unfold app.availability. simpl.
  rewrite Ha, Hb, Hds, Hde. simpl. unfold dt_ge.
  destruct (Z.leb_spec (timestamp (utc_if_naive de))
              (timestamp (utc_if_naive ds))); [lia|reflexivity].
Qed.

End RouteProperties.

Lemma availability_accepts_bookable_witness :
  app.availability iso_samples (datetime * datetime) (λ s e, [(s, e)])
    (Some "2030-01-02T00:00:00+00:00") (Some "2030-01-02T01:00:00")
  = app.AvailabilityRooms (datetime * datetime)
      [(aware (jan1 + day), aware (jan1 + day + hour))].
Proof.
  apply (availability_accepts_bookable iso_samples (datetime * datetime)
           (λ s e, [(s, e)]) env0).
  reflexivity.
Defined.
